(** * Solar lead scoring: bill estimator, roof analyzer, lead scoring engine

    A shallow embedding of [src/bill_estimator.py], [src/roof_analyzer.py]
    and [src/lead_scoring.py].

    Conventions of the embedding.
    - A Python dict with string keys is a [gmap string pyval]; an optional
      dict argument ([utility_data=None]) is an [option] of it.
    - Python numbers (int and float alike) are exact rationals [Q]; the
      rounding error of binary floating point, NaN and the infinities are
      outside the model.  [bool] is a number (0 or 1) as in Python.
    - A raised exception is the [Raise] constructor of [result]; a
      [try: ... except Exception as e: ...] block is [try_except].
    - [datetime.now()] is read once: the current year is a parameter and
      the [timestamp] field of the results is left out. *)

From Stdlib Require Import ZArith QArith Qround Qabs Lqa Lia String Ascii List.
From stdpp Require Import gmap strings.

Local Open Scope string_scope.
Local Open Scope Z_scope.

(** ** Python values and exceptions *)

Inductive pyval : Type :=
| VNone
| VBool (b : bool)
| VNum (q : Q)
| VStr (s : string).

Abbreviation dict := (gmap string pyval).

Inductive exn : Type :=
| TypeError (msg : string)
| AttributeError (msg : string)
| KeyError (msg : string)
| ValueError (msg : string)
| ZeroDivisionError (msg : string).

(** [str(e)] *)
Definition exn_str (e : exn) : string :=
  match e with
  | TypeError m | AttributeError m | KeyError m | ValueError m
  | ZeroDivisionError m => m
  end.

Inductive result (A : Type) : Type :=
| Ok (a : A)
| Raise (e : exn).
Arguments Ok {A} a.
Arguments Raise {A} e.

#[global] Instance result_ret : MRet result := @Ok.
#[global] Instance result_bind : MBind result :=
  fun A B f m => match m with Ok a => f a | Raise e => Raise e end.

(** [try: body  except Exception as e: handler e] *)
Definition try_except {A} (body : result A) (handler : exn -> result A) : result A :=
  match body with
  | Ok a => Ok a
  | Raise e => handler e
  end.

(** ** Primitive operations on values *)

(** The numeric reading of an operand of [<], [>=], [-], [* 0.10], ...;
    [None] and strings raise [TypeError] there. *)
Definition as_num (v : pyval) : result Q :=
  match v with
  | VNum q => Ok q
  | VBool b => Ok (if b then 1%Q else 0%Q)
  | VNone => Raise (TypeError "unsupported operand type: NoneType")
  | VStr _ => Raise (TypeError "unsupported operand type: str")
  end.

(** Truth value of an object in [if x:]. *)
Definition truthy (v : pyval) : bool :=
  match v with
  | VNone => false
  | VBool b => b
  | VNum q => negb (Qeq_bool q 0)
  | VStr s => negb (String.eqb s "")
  end.

Definition dict_empty (d : dict) : bool :=
  match map_to_list d with [] => true | _ => false end.

(** Truth value of an optional dict argument: [None] and [{}] are false. *)
Definition dict_truthy (o : option dict) : bool :=
  match o with
  | None => false
  | Some d => negb (dict_empty d)
  end.

(** [k in d] *)
Definition has_key (k : string) (d : dict) : bool :=
  match d !! k with Some _ => true | None => false end.

(** [d.get(k, dflt)] *)
Definition dict_get (k : string) (dflt : pyval) (d : dict) : pyval :=
  match d !! k with Some v => v | None => dflt end.

(** [v == s] for a string literal [s] *)
Definition eq_str (v : pyval) (s : string) : bool :=
  match v with VStr t => String.eqb t s | _ => false end.

Definition Qltb (x y : Q) : bool := negb (Qle_bool y x).
Definition Qgeb (x y : Q) : bool := Qle_bool y x.
Definition Qgtb (x y : Q) : bool := negb (Qle_bool x y).
Definition Qleb (x y : Q) : bool := Qle_bool x y.

(** [x / y] *)
Definition py_div (x y : Q) : result Q :=
  if Qeq_bool y 0 then Raise (ZeroDivisionError "division by zero")
  else Ok (x / y)%Q.

(** [round(x)] with one argument: nearest integer, ties to the even one. *)
Definition py_round (q : Q) : Z :=
  let f := Qfloor q in
  match Qcompare (q - inject_Z f) (1 # 2) with
  | Lt => f
  | Gt => f + 1
  | Eq => if Z.even f then f else f + 1
  end.

(** [round(v)] of a value: strings and [None] have no [__round__]. *)
Definition round_val (v : pyval) : result Z :=
  match v with
  | VNum q => Ok (py_round q)
  | VBool b => Ok (if b then 1 else 0)
  | VNone => Raise (TypeError "type NoneType doesn't define __round__ method")
  | VStr _ => Raise (TypeError "type str doesn't define __round__ method")
  end.

Definition lower_ascii (c : ascii) : ascii :=
  let n := nat_of_ascii c in
  if (andb (Nat.leb 65 n) (Nat.leb n 90)) then ascii_of_nat (n + 32) else c.

Fixpoint lower (s : string) : string :=
  match s with
  | EmptyString => EmptyString
  | String c r => String (lower_ascii c) (lower r)
  end.

(** [v.lower()] *)
Definition str_lower (v : pyval) : result string :=
  match v with
  | VStr s => Ok (lower s)
  | _ => Raise (AttributeError "object has no attribute 'lower'")
  end.

(** The cardinal-direction table shared by both engines;
    [orientation_scores.get(orientation, 50)]. *)
Definition orientation_scores_get (v : pyval) : Q :=
  if eq_str v "S" then 100
  else if eq_str v "SE" then 90
  else if eq_str v "SW" then 90
  else if eq_str v "E" then 70
  else if eq_str v "W" then 70
  else if eq_str v "NE" then 40
  else if eq_str v "NW" then 40
  else if eq_str v "N" then 20
  else 50.

(** [condition_scores.get(condition, 50)] *)
Definition condition_scores_get (s : string) : Q :=
  if String.eqb s "excellent" then 100
  else if String.eqb s "good" then 80
  else if String.eqb s "fair" then 60
  else if String.eqb s "poor" then 30
  else if String.eqb s "very poor" then 10
  else 50.

(** ** LeadScoringEngine ([src/lead_scoring.py]) *)

Module LeadScoring.

(** [self.weights], [self.thresholds] and [self.min_requirements]; the
    entries are numbers, as in the constructor's defaults. *)
Record config : Type := {
  w_bill_size : Q;
  w_roof_suitability : Q;
  w_property_value : Q;
  w_net_metering : Q;
  w_homeowner : Q;
  th_excellent : Q;
  th_good : Q;
  th_average : Q;
  th_poor : Q;
  min_monthly_bill : Q;
  min_roof_score : Q
}.

Definition default_config : config := {|
  w_bill_size := 0.30;
  w_roof_suitability := 0.25;
  w_property_value := 0.15;
  w_net_metering := 0.20;
  w_homeowner := 0.10;
  th_excellent := 80;
  th_good := 65;
  th_average := 50;
  th_poor := 35;
  min_monthly_bill := 120;
  min_roof_score := 30
|}.

Record component_scores : Type := {
  bill_score : Z;
  roof_score : Z;
  property_score : Z;
  metering_score : Z;
  homeowner_score : Z
}.

(** The two dictionaries [calculate_overall_score] can return; [engine]
    stands for the [weights] entry, which repeats the engine's own. *)
Inductive score_result : Type :=
| Scored (property_id : pyval) (overall : Z) (qualification : string)
         (disqualified : bool) (disqualification_reason : option string)
         (components : component_scores) (engine : config)
| ScoreError (property_id : pyval) (error : string).

Definition overall_score (r : score_result) : Z :=
  match r with
  | Scored _ o _ _ _ _ _ => o
  | ScoreError _ _ => 0
  end.

Definition qualification_of (r : score_result) : string :=
  match r with
  | Scored _ _ q _ _ _ _ => q
  | ScoreError _ _ => "error"
  end.

Definition calculate_bill_score (property_data : dict) (utility_data : option dict)
  : result Q :=
  monthly_bill ←
    match utility_data with
    | Some u =>
        if dict_truthy utility_data && has_key "estimated_monthly_bill" u
        then as_num (dict_get "estimated_monthly_bill" VNone u)
        else
          match property_data !! "square_footage" with
          | Some sf => q ← as_num sf; mret (q * 0.10)%Q
          | None => mret 0%Q
          end
    | None =>
        match property_data !! "square_footage" with
        | Some sf => q ← as_num sf; mret (q * 0.10)%Q
        | None => mret 0%Q
        end
    end;
  if Qltb monthly_bill 120 then mret 0%Q
  else if Qgeb monthly_bill 300 then mret 100%Q
  else if Qgeb monthly_bill 200 then mret (80 + (monthly_bill - 200) * 20 / 100)%Q
  else mret (50 + (monthly_bill - 120) * 30 / 80)%Q.

(** The part of [calculate_roof_score] after the pre-computed score was
    not found: the orientation, area, shading and condition terms. *)
Definition roof_score_from_characteristics (r : dict) : result Q :=
  let score := 0%Q in
  let score :=
    match r !! "primary_orientation" with
    | Some o => (score + orientation_scores_get o * 0.4)%Q
    | None => score
    end in
  score ←
    match r !! "usable_roof_area" with
    | Some a =>
        usable_area ← as_num a;
        let area_score :=
          if Qltb usable_area 400 then 0%Q
          else if Qgeb usable_area 1200 then 100%Q
          else (50 + (usable_area - 400) * 50 / 800)%Q in
        mret (score + area_score * 0.3)%Q
    | None => mret score
    end;
  score ←
    match r !! "shading_percentage" with
    | Some s =>
        shading_pct ← as_num s;
        let shading_score :=
          if Qgtb shading_pct 40 then 0%Q
          else (100 - (shading_pct / 40) * 100)%Q in
        mret (score + shading_score * 0.2)%Q
    | None => mret score
    end;
  match r !! "roof_condition" with
  | Some c =>
      condition ← str_lower c;
      mret (score + condition_scores_get condition * 0.1)%Q
  | None => mret score
  end.

Definition calculate_roof_score (property_data : dict) (roof_data : option dict)
  : result pyval :=
  match roof_data with
  | None => mret (VNum 50)
  | Some r =>
      if negb (dict_truthy roof_data) then mret (VNum 50)
      else
        match r !! "overall_score" with
        | Some v => mret v
        | None => s ← roof_score_from_characteristics r; mret (VNum s)
        end
  end.

Definition calculate_property_score (property_data : dict) : result Q :=
  let score := 0%Q in
  match
    match property_data !! "is_owner_occupied" with
    | Some v => if truthy v then Some (score + 100 * 0.4)%Q else None
    | None => Some score
    end
  with
  | None => mret 0%Q
  | Some score =>
      let score :=
        match property_data !! "property_type" with
        | Some t =>
            if eq_str t "Single-Family" then (score + 100 * 0.3)%Q
            else if eq_str t "Multi-Family" then (score + 50 * 0.3)%Q
            else (score + 0 * 0.3)%Q
        | None => score
        end in
      score ←
        match property_data !! "property_value" with
        | Some v =>
            value ← as_num v;
            let value_score :=
              if Qgeb value 500000 then 100%Q
              else if Qgeb value 300000 then 80%Q
              else if Qgeb value 200000 then 60%Q
              else if Qgeb value 100000 then 40%Q
              else 20%Q in
            mret (score + value_score * 0.2)%Q
        | None => mret score
        end;
      match property_data !! "has_solar_permit" with
      | Some p => if truthy p then mret 0%Q else mret (score + 100 * 0.1)%Q
      | None => mret score
      end
  end.

Definition calculate_net_metering_score (property_data : dict)
    (utility_data : option dict) : result Q :=
  match utility_data with
  | None => mret 50%Q
  | Some u =>
      if negb (dict_truthy utility_data) then mret 50%Q
      else
        let score := 0%Q in
        let score :=
          match u !! "net_metering_available" with
          | Some v => if truthy v then (score + 100 * 0.6)%Q else (score + 30 * 0.6)%Q
          | None => score
          end in
        match u !! "residential" with
        | Some v =>
            rate ← as_num v;
            let rate_score :=
              if Qgeb rate 0.14 then 100%Q
              else if Qgeb rate 0.12 then 80%Q
              else if Qgeb rate 0.10 then 60%Q
              else if Qgeb rate 0.08 then 40%Q
              else 20%Q in
            mret (score + rate_score * 0.4)%Q
        | None => mret score
        end
  end.

Definition calculate_homeowner_score (property_data : dict)
    (owner_data : option dict) : result Q :=
  match owner_data with
  | None => mret 50%Q
  | Some o =>
      if negb (dict_truthy owner_data) then mret 50%Q
      else
        let score := 0%Q in
        let has_phone := match o !! "phone" with Some v => truthy v | None => false end in
        let has_email := match o !! "email" with Some v => truthy v | None => false end in
        let contact_score :=
          if has_phone && has_email then 100%Q
          else if has_phone then 70%Q
          else if has_email then 60%Q
          else 0%Q in
        let score := (score + contact_score * 0.4)%Q in
        let score :=
          match o !! "do_not_call" with
          | Some v => if truthy v then (score + 0 * 0.3)%Q else (score + 100 * 0.3)%Q
          | None => score
          end in
        match o !! "ownership_years" with
        | Some v =>
            years ← as_num v;
            let ownership_score :=
              if Qgeb years 5 then 100%Q
              else if Qgeb years 3 then 80%Q
              else if Qgeb years 1 then 60%Q
              else 40%Q in
            mret (score + ownership_score * 0.3)%Q
        | None => mret score
        end
  end.

Definition qualify (cfg : config) (overall : Q) : string :=
  if Qgeb overall (th_excellent cfg) then "excellent"
  else if Qgeb overall (th_good cfg) then "good"
  else if Qgeb overall (th_average cfg) then "average"
  else if Qgeb overall (th_poor cfg) then "poor"
  else "unsuitable".

(** The body of the [try] block of [calculate_overall_score]. *)
Definition calculate_overall_score_body (cfg : config) (property_data : dict)
    (utility_data roof_data owner_data : option dict) : result score_result :=
  bill ← calculate_bill_score property_data utility_data;
  roof ← calculate_roof_score property_data roof_data;
  property ← calculate_property_score property_data;
  metering ← calculate_net_metering_score property_data utility_data;
  homeowner ← calculate_homeowner_score property_data owner_data;
  '(disqualified, reason, overall) ←
    (if Qltb bill (min_monthly_bill cfg)
     then mret (true, Some "Monthly bill below minimum threshold", 0%Q)
     else
       roofq ← as_num roof;
       if Qltb roofq (min_roof_score cfg)
       then mret (true, Some "Roof unsuitable for solar installation", 0%Q)
       else mret (false, None,
                  (bill * w_bill_size cfg +
                   roofq * w_roof_suitability cfg +
                   property * w_property_value cfg +
                   metering * w_net_metering cfg +
                   homeowner * w_homeowner cfg)%Q));
  let qualification := qualify cfg overall in
  roof_rounded ← round_val roof;
  mret (Scored (dict_get "property_id" (VStr "unknown") property_data)
          (py_round overall) qualification disqualified reason
          {| bill_score := py_round bill;
             roof_score := roof_rounded;
             property_score := py_round property;
             metering_score := py_round metering;
             homeowner_score := py_round homeowner |}
          cfg).

Definition calculate_overall_score (cfg : config) (property_data : dict)
    (utility_data roof_data owner_data : option dict) : result score_result :=
  try_except
    (calculate_overall_score_body cfg property_data utility_data roof_data owner_data)
    (fun e => mret (ScoreError (dict_get "property_id" (VStr "unknown") property_data)
                      (exn_str e))).

(** Readings of a result used to state the properties. *)

Definition in_range (z : Z) : Prop := 0 <= z <= 100.

Definition components_in_range (c : component_scores) : Prop :=
  in_range (bill_score c) /\ in_range (roof_score c) /\
  in_range (property_score c) /\ in_range (metering_score c) /\
  in_range (homeowner_score c).

Definition components_of (r : score_result) : option component_scores :=
  match r with
  | Scored _ _ _ _ _ c _ => Some c
  | ScoreError _ _ => None
  end.

Definition disqualified_of (r : score_result) : option bool :=
  match r with
  | Scored _ _ _ d _ _ _ => Some d
  | ScoreError _ _ => None
  end.

(** What the amended range property asks of the roof record: a
    pre-computed [overall_score] is within 0..100, and without one the
    shading percentage is not negative. *)
Definition roof_input_in_range (roof_data : option dict) : bool :=
  match roof_data with
  | None => true
  | Some d =>
      match d !! "overall_score" with
      | Some (VNum q) => Qleb 0 q && Qleb q 100
      | Some _ => true
      | None =>
          match d !! "shading_percentage" with
          | Some (VNum q) => Qleb 0 q
          | _ => true
          end
      end
  end.

(** The default configuration with both minimum requirements set to 0. *)
Definition no_minimum_config : config := {|
  w_bill_size := 0.30;
  w_roof_suitability := 0.25;
  w_property_value := 0.15;
  w_net_metering := 0.20;
  w_homeowner := 0.10;
  th_excellent := 80;
  th_good := 65;
  th_average := 50;
  th_poor := 35;
  min_monthly_bill := 0;
  min_roof_score := 0
|}.

Definition weighted_sum (cfg : config) (bill roofq property metering homeowner : Q) : Q :=
  (bill * w_bill_size cfg + roofq * w_roof_suitability cfg +
   property * w_property_value cfg + metering * w_net_metering cfg +
   homeowner * w_homeowner cfg)%Q.

(** Sample records. *)
Definition utility_bill (b : Q) : dict := {[ "estimated_monthly_bill" := VNum b ]}.

Definition roof_precomputed (q : Q) : dict := {[ "overall_score" := VNum q ]}.

Definition scored_default (bill roof : Z) : score_result :=
  Scored (VStr "unknown") 0 "unsuitable" true
    (Some "Monthly bill below minimum threshold")
    {| bill_score := bill; roof_score := roof; property_score := 0;
       metering_score := 0; homeowner_score := 50 |} default_config.

Definition utility_provider_only : dict := {[ "utility_provider" := VStr "Oncor" ]}.

Definition owner_without_contact : dict := {[ "phone" := VStr "" ]}.

Definition property_bad_square_footage : dict := {[ "square_footage" := VStr "large" ]}.

(** Weights that are not negative and add up to 1, as the default ones. *)
Definition weights_normalised (cfg : config) : Prop :=
  (0 <= w_bill_size cfg /\ 0 <= w_roof_suitability cfg /\
   0 <= w_property_value cfg /\ 0 <= w_net_metering cfg /\ 0 <= w_homeowner cfg /\
   w_bill_size cfg + w_roof_suitability cfg + w_property_value cfg +
   w_net_metering cfg + w_homeowner cfg == 1)%Q.

Definition thresholds_positive (cfg : config) : Prop :=
  (0 < th_excellent cfg /\ 0 < th_good cfg /\ 0 < th_average cfg /\
   0 < th_poor cfg)%Q.



(** The default configuration with the bill minimum on the scale of the
    bill score (50 points are what a bill of $120 earns). *)
Definition score_scale_config : config := {|
  w_bill_size := 0.30;
  w_roof_suitability := 0.25;
  w_property_value := 0.15;
  w_net_metering := 0.20;
  w_homeowner := 0.10;
  th_excellent := 80;
  th_good := 65;
  th_average := 50;
  th_poor := 35;
  min_monthly_bill := 50;
  min_roof_score := 30
|}.

Definition property_rented : dict :=
  <["is_owner_occupied" := VBool false]>
    (<["property_type" := VStr "Single-Family"]> {[ "property_value" := VStr "n/a" ]}).

Definition property_with_solar : dict :=
  <["is_owner_occupied" := VBool true]> {[ "has_solar_permit" := VBool true ]}.

Definition scored_roof_disqualified : score_result :=
  Scored (VStr "unknown") 0 "unsuitable" true
    (Some "Roof unsuitable for solar installation")
    {| bill_score := 90; roof_score := 10; property_score := 0;
       metering_score := 0; homeowner_score := 50 |} score_scale_config.

Definition scored_at_120 : score_result :=
  Scored (VStr "unknown") 32 "unsuitable" false None
    {| bill_score := 50; roof_score := 50; property_score := 0;
       metering_score := 0; homeowner_score := 50 |} score_scale_config.

(** Minimum requirements and weights under which a weighted sum that
    rounds to 0 can only come from a disqualification: a positive bill
    minimum, a roof minimum that is not negative, weights that are not
    negative and a bill weight of at least 1/50. *)
Definition minimums_regular (cfg : config) : Prop :=
  (0 < min_monthly_bill cfg /\ 0 <= min_roof_score cfg /\
   (1 # 50) <= w_bill_size cfg /\ 0 <= w_roof_suitability cfg /\
   0 <= w_property_value cfg /\ 0 <= w_net_metering cfg /\
   0 <= w_homeowner cfg)%Q.

(** Positive minimums with a bill weight of 1/100 and no other weight. *)
Definition thin_bill_weight_config : config := {|
  w_bill_size := 1 # 100;
  w_roof_suitability := 0;
  w_property_value := 0;
  w_net_metering := 0;
  w_homeowner := 0;
  th_excellent := 80;
  th_good := 65;
  th_average := 50;
  th_poor := 35;
  min_monthly_bill := 50;
  min_roof_score := 30
|}.

(** *** The call with [property_data = None] *)

Definition none_not_iterable : exn :=
  TypeError "argument of type 'NoneType' is not iterable".

Definition none_has_no_get : exn :=
  AttributeError "'NoneType' object has no attribute 'get'".

(** [calculate_bill_score(None, utility_data)]: without an estimated
    bill in the utility data, ['square_footage' in property_data]
    raises. *)
Definition calculate_bill_score_none (utility_data : option dict) : result Q :=
  monthly_bill ←
    match utility_data with
    | Some u =>
        if dict_truthy utility_data && has_key "estimated_monthly_bill" u
        then as_num (dict_get "estimated_monthly_bill" VNone u)
        else Raise none_not_iterable
    | None => Raise none_not_iterable
    end;
  if Qltb monthly_bill 120 then mret 0%Q
  else if Qgeb monthly_bill 300 then mret 100%Q
  else if Qgeb monthly_bill 200 then mret (80 + (monthly_bill - 200) * 20 / 100)%Q
  else mret (50 + (monthly_bill - 120) * 30 / 80)%Q.

(** The body of the [try] block for [property_data = None]:
    [calculate_roof_score] does not look at the property, and
    [calculate_property_score] raises at its first test
    (['is_owner_occupied' in property_data]), so nothing after it runs. *)
Definition calculate_overall_score_body_none (cfg : config)
    (utility_data roof_data owner_data : option dict) : result score_result :=
  bill ← calculate_bill_score_none utility_data;
  roof ← calculate_roof_score ∅ roof_data;
  Raise none_not_iterable.

(** [calculate_overall_score] for a [property_data] that is a dictionary
    or [None]: in the second case the handler's own
    [property_data.get('property_id', 'unknown')] raises. *)
Definition calculate_overall_score_of (cfg : config) (property_data : option dict)
    (utility_data roof_data owner_data : option dict) : result score_result :=
  match property_data with
  | Some p => calculate_overall_score cfg p utility_data roof_data owner_data
  | None =>
      try_except
        (calculate_overall_score_body_none cfg utility_data roof_data owner_data)
        (fun _ => Raise none_has_no_get)
  end.

End LeadScoring.

(** ** BillEstimator ([src/bill_estimator.py]) *)

Module BillEstimator.

(** One entry of [self.climate_zones]. *)
Record zone : Type := {
  zone_name : string;
  base_factor : Q;
  zip_prefixes : list string
}.

(** [self.base_consumption], [self.monthly_factors] and
    [self.climate_zones] (a dict, iterated in insertion order). *)
Record config : Type := {
  small : Q;
  medium : Q;
  large : Q;
  very_large : Q;
  monthly_factors : list (Z * Q);
  climate_zones : list zone
}.

Definition default_config : config := {|
  small := 700;
  medium := 1000;
  large := 1300;
  very_large := 1600;
  monthly_factors :=
    [ (1, 0.85%Q); (2, 0.80%Q); (3, 0.75%Q); (4, 0.80%Q); (5, 1.00%Q);
      (6, 1.30%Q); (7, 1.50%Q); (8, 1.50%Q); (9, 1.20%Q); (10, 0.90%Q);
      (11, 0.75%Q); (12, 0.85%Q) ];
  climate_zones :=
    [ {| zone_name := "north"; base_factor := 1.0;
         zip_prefixes := ["750"; "751"; "752"; "753"; "754"; "755"; "756"; "757";
                          "758"; "759"; "760"; "761"; "762"; "763"; "764"; "765";
                          "766"; "767"] |};
      {| zone_name := "central"; base_factor := 1.05;
         zip_prefixes := ["768"; "769"; "770"; "771"; "772"; "773"; "774"; "775";
                          "776"; "777"; "778"; "779"; "780"; "781"; "782"; "783";
                          "784"; "785"] |};
      {| zone_name := "south"; base_factor := 1.15;
         zip_prefixes := ["786"; "787"; "788"; "789"; "790"; "791"; "792"; "793";
                          "794"; "795"; "796"; "797"; "798"; "799"] |} ]
|}.

(** The size tiers. *)
Inductive tier : Type := Small | Medium | Large | VeryLarge.

Definition tier_of (square_footage : Q) : tier :=
  if Qltb square_footage 1200 then Small
  else if Qltb square_footage 2500 then Medium
  else if Qltb square_footage 3500 then Large
  else VeryLarge.

(** "Determine base consumption by home size". *)
Definition tier_base (cfg : config) (square_footage : Q) : Q :=
  match tier_of square_footage with
  | Small => small cfg
  | Medium => medium cfg
  | Large => large cfg
  | VeryLarge => very_large cfg
  end.

(** [(min_sqft, max_sqft, min_usage, max_usage)] of the category. *)
Definition tier_bounds (cfg : config) (square_footage : Q) : Q * Q * Q * Q :=
  match tier_of square_footage with
  | Small => (800, 1200, small cfg * 0.8, small cfg)
  | Medium => (1200, 2500, medium cfg * 0.8, medium cfg * 1.2)
  | Large => (2500, 3500, large cfg * 0.8, large cfg * 1.2)
  | VeryLarge => (3500, 5000, very_large cfg * 0.8, very_large cfg * 1.3)
  end%Q.

(** Base usage after tier selection and interpolation (lines 98-126). *)
Definition base_usage (cfg : config) (square_footage : Q) : Q :=
  let base := tier_base cfg square_footage in
  if Qgtb square_footage 0 then
    let '(min_sqft, max_sqft, min_usage, max_usage) := tier_bounds cfg square_footage in
    let sqft_factor := ((square_footage - min_sqft) / (max_sqft - min_sqft))%Q in
    (min_usage + sqft_factor * (max_usage - min_usage))%Q
  else base.

Definition age_factor (current_year : Z) (year_built : Q) : Q :=
  if Qgtb year_built 0 then
    let age := (inject_Z current_year - year_built)%Q in
    if Qleb age 5 then 0.85
    else if Qleb age 15 then 0.9
    else if Qleb age 30 then 1.0
    else if Qleb age 50 then 1.1
    else 1.2
  else 1.0.

Definition bedroom_factor (bedrooms : Q) : Q :=
  if Qleb bedrooms 1 then 0.7
  else if Qeq_bool bedrooms 2 then 0.85
  else if Qeq_bool bedrooms 3 then 1.0
  else if Qeq_bool bedrooms 4 then 1.15
  else 1.25.

(** The inner loop over one zone's prefixes: did some prefix match?
    [zip_code.startswith] exists on strings only. *)
Fixpoint prefix_loop (zip_code : pyval) (prefixes : list string) : result bool :=
  match prefixes with
  | [] => Ok false
  | p :: rest =>
      match zip_code with
      | VStr z => if String.prefix p z then Ok true else prefix_loop zip_code rest
      | _ => Raise (AttributeError "object has no attribute 'startswith'")
      end
  end.

(** The outer loop: [break] leaves the inner loop only, so a later
    matching zone overwrites the factor of an earlier one. *)
Fixpoint zone_loop (zip_code : pyval) (zones : list zone) (climate_factor : Q)
  : result Q :=
  match zones with
  | [] => Ok climate_factor
  | z :: rest =>
      hit ← prefix_loop zip_code (zip_prefixes z);
      zone_loop zip_code rest (if hit : bool then base_factor z else climate_factor)
  end.

Definition climate_factor (cfg : config) (zip_code : pyval) : result Q :=
  zone_loop zip_code (climate_zones cfg) 1.0.

(** [self.monthly_factors.get(month, 1.0)]: keys are compared as numbers. *)
Fixpoint monthly_factors_get (table : list (Z * Q)) (month : Q) : Q :=
  match table with
  | [] => 1.0
  | (k, f) :: rest => if Qeq_bool (inject_Z k) month then f else monthly_factors_get rest month
  end.

Definition month_factor (cfg : config) (month : pyval) : result Q :=
  match month with
  | VNone => Ok 1.0%Q
  | _ =>
      m ← as_num month;
      if Qleb 1 m && Qleb m 12 then Ok (monthly_factors_get (monthly_factors cfg) m)
      else Ok 1.0%Q
  end.

(** [rate]: the utility's residential rate when supplied, else 0.12. *)
Definition rate_of (utility_data : option dict) : pyval :=
  match utility_data with
  | Some u =>
      if dict_truthy utility_data && has_key "residential" u
      then dict_get "residential" VNone u
      else VNum 0.12
  | None => VNum 0.12
  end.

(** The body of the [try] block of [estimate_monthly_bill]. *)
Definition estimate_monthly_bill_body (cfg : config) (current_year : Z)
    (property_data : dict) (utility_data : option dict) (month : pyval) : result Q :=
  let square_footage := dict_get "square_footage" (VNum 0) property_data in
  let year_built := dict_get "year_built" (VNum 2000) property_data in
  let bedrooms := dict_get "bedrooms" (VNum 3) property_data in
  let zip_code := dict_get "zip_code" (VStr "") property_data in
  let rate := rate_of utility_data in
  sf ← as_num square_footage;
  let base := base_usage cfg sf in
  yb ← as_num year_built;
  let af := age_factor current_year yb in
  br ← as_num bedrooms;
  let bf := bedroom_factor br in
  cf ← climate_factor cfg zip_code;
  mf ← month_factor cfg month;
  let estimated_usage := (base * af * bf * cf * mf)%Q in
  r ← as_num rate;
  mret (estimated_usage * r)%Q.

Definition estimate_monthly_bill (cfg : config) (current_year : Z)
    (property_data : dict) (utility_data : option dict) (month : pyval) : result Q :=
  try_except
    (estimate_monthly_bill_body cfg current_year property_data utility_data month)
    (fun _ => mret 0%Q).

(** [f] tends to [l] as its argument approaches [a] from below. *)
Definition left_limit (f : Q -> Q) (a l : Q) : Prop :=
  forall eps : Q, (0 < eps)%Q ->
    exists delta : Q, (0 < delta)%Q /\
      forall s : Q, (a - delta < s)%Q -> (s < a)%Q -> (Qabs (f s - l) < eps)%Q.

(** Sample records. *)
Definition property_austin : dict :=
  <["square_footage" := VNum 2000]>
    (<["year_built" := VNum 2015]>
       (<["bedrooms" := VNum 3]> {[ "zip_code" := VStr "78701" ]})).

Definition utility_rate (r : Q) : dict := {[ "residential" := VNum r ]}.

(** [property_data] with its square footage set to [s]. *)
Definition with_square_footage (s : Q) (property_data : dict) : dict :=
  <["square_footage" := VNum s]> property_data.

Definition zones_positive (cfg : config) : Prop :=
  Forall (fun z => (0 < base_factor z)%Q) (climate_zones cfg).

Definition months_positive (cfg : config) : Prop :=
  Forall (fun kf => (0 < snd kf)%Q) (monthly_factors cfg).

(** [round(x, 2)] *)
Definition py_round2 (q : Q) : Q := (inject_Z (py_round (q * 100)) / 100)%Q.

(** [calendar.month_name[1..12]] with the month numbers. *)
Definition months_of_year : list (Z * string) :=
  [ (1, "January"); (2, "February"); (3, "March"); (4, "April"); (5, "May");
    (6, "June"); (7, "July"); (8, "August"); (9, "September"); (10, "October");
    (11, "November"); (12, "December") ].

(** The dictionary [estimate_annual_bill_profile] returns; [monthly]
    keeps the insertion order of its keys. *)
Record bill_profile : Type := {
  monthly : list (string * Q);
  annual_total : Q;
  monthly_average : Q
}.

(** The loop [for month in range(1, 13)], with [monthly_bills] and
    [annual_total] as its state. *)
Fixpoint profile_loop (cfg : config) (current_year : Z) (property_data : dict)
    (utility_data : option dict) (months : list (Z * string))
    (monthly_bills : list (string * Q)) (total : Q) : result (list (string * Q) * Q) :=
  match months with
  | [] => Ok (monthly_bills, total)
  | (month, month_name) :: rest =>
      monthly_bill ← estimate_monthly_bill cfg current_year property_data utility_data
                       (VNum (inject_Z month));
      profile_loop cfg current_year property_data utility_data rest
        (monthly_bills ++ [(month_name, py_round2 monthly_bill)])
        (total + monthly_bill)%Q
  end.

Definition estimate_annual_bill_profile (cfg : config) (current_year : Z)
    (property_data : dict) (utility_data : option dict) : result bill_profile :=
  '(monthly_bills, total) ←
    profile_loop cfg current_year property_data utility_data months_of_year [] 0%Q;
  mret {| monthly := monthly_bills;
          annual_total := py_round2 total;
          monthly_average := py_round2 (total / 12) |}.

(** The region loop of [estimate_bill_by_zip_code]: as in [zone_loop],
    [break] leaves the inner loop only. *)
Fixpoint region_loop (zip_code : pyval) (zones : list zone) (region : string)
  : result string :=
  match zones with
  | [] => Ok region
  | z :: rest =>
      hit ← prefix_loop zip_code (zip_prefixes z);
      region_loop zip_code rest (if hit : bool then zone_name z else region)
  end.

(** [region_map.get(region, 'central')] *)
Definition region_map_get (region : string) : string :=
  if String.eqb region "north" then "north"
  else if String.eqb region "central" then "central"
  else if String.eqb region "south" then "south"
  else "central".

(** [utility_rates.get(utility_region, 0.12)] *)
Definition utility_rates_get (utility_region : string) : Q :=
  if String.eqb utility_region "north" then 0.115
  else if String.eqb utility_region "central" then 0.125
  else if String.eqb utility_region "south" then 0.135
  else if String.eqb utility_region "west" then 0.110
  else if String.eqb utility_region "panhandle" then 0.105
  else 0.12.

Definition upper_ascii (c : ascii) : ascii :=
  let n := nat_of_ascii c in
  if (andb (Nat.leb 97 n) (Nat.leb n 122)) then ascii_of_nat (n - 32) else c.

(** [s.capitalize()] *)
Definition capitalize (s : string) : string :=
  match s with
  | EmptyString => EmptyString
  | String c r => String (upper_ascii c) (lower r)
  end.

(** The "simplified property data dictionary" of
    [estimate_bill_by_zip_code]. *)
Definition property_of_zip (zip_code square_footage year_built bedrooms : pyval)
  : dict :=
  <["bedrooms" := bedrooms]>
    (<["year_built" := year_built]>
       (<["square_footage" := square_footage]> {[ "zip_code" := zip_code ]})).

(** [estimate_bill_by_zip_code]; nothing of it is inside a [try]. *)
Definition estimate_bill_by_zip_code (cfg : config) (current_year : Z)
    (zip_code square_footage year_built bedrooms : pyval) : result Q :=
  let property_data := property_of_zip zip_code square_footage year_built bedrooms in
  region ← region_loop zip_code (climate_zones cfg) "central";
  let utility_region := region_map_get region in
  let rate := utility_rates_get utility_region in
  let utility_data : dict :=
    <["utility_provider" := VStr (capitalize utility_region ++ " Texas Utility")]>
      {[ "residential" := VNum rate ]} in
  estimate_monthly_bill cfg current_year property_data (Some utility_data) VNone.

(** Does some prefix of the zone begin the ZIP code? *)
Definition zone_matches (zip : string) (z : zone) : bool :=
  existsb (fun p => String.prefix p zip) (zip_prefixes z).

(** The usage of [estimate_monthly_bill] before the month factor and
    the rate are applied. *)
Definition usage_without_month (cfg : config) (current_year : Z)
    (property_data : dict) : result Q :=
  sf ← as_num (dict_get "square_footage" (VNum 0) property_data);
  yb ← as_num (dict_get "year_built" (VNum 2000) property_data);
  br ← as_num (dict_get "bedrooms" (VNum 3) property_data);
  cf ← climate_factor cfg (dict_get "zip_code" (VStr "") property_data);
  mret (base_usage cfg sf * age_factor current_year yb * bedroom_factor br * cf)%Q.

(** A configuration whose two zones overlap on the prefix "787". *)
Definition zone_hill_country : zone :=
  {| zone_name := "hill_country"; base_factor := 1.05; zip_prefixes := ["78"] |}.

Definition zone_austin : zone :=
  {| zone_name := "austin"; base_factor := 1.15; zip_prefixes := ["787"] |}.

Definition zone_panhandle : zone :=
  {| zone_name := "panhandle"; base_factor := 1.0; zip_prefixes := ["790"; "791"] |}.

Definition overlapping_config : config := {|
  small := 700;
  medium := 1000;
  large := 1300;
  very_large := 1600;
  monthly_factors := [];
  climate_zones := [zone_hill_country; zone_austin; zone_panhandle]
|}.

(** [estimate_monthly_bill] for a [property_data] that is a dictionary
    or [None]: in the second case [property_data.get], the first
    statement of the [try] block, raises and the handler returns 0. *)
Definition estimate_monthly_bill_of (cfg : config) (current_year : Z)
    (property_data : option dict) (utility_data : option dict) (month : pyval)
  : result Q :=
  match property_data with
  | Some p => estimate_monthly_bill cfg current_year p utility_data month
  | None =>
      try_except
        (Raise (AttributeError "'NoneType' object has no attribute 'get'"))
        (fun _ => mret 0%Q)
  end.

End BillEstimator.

(** ** RoofAnalyzer ([src/roof_analyzer.py]) *)

Module RoofAnalyzer.

(** [self.weights], [self.min_requirements] and [self.optimal_values]. *)
Record config : Type := {
  w_orientation : Q;
  w_area : Q;
  w_shading : Q;
  w_pitch : Q;
  w_condition : Q;
  min_usable_area : Q;
  max_shading : Q;
  optimal_azimuth : Q;
  optimal_pitch : Q
}.

Definition default_config : config := {|
  w_orientation := 0.35;
  w_area := 0.25;
  w_shading := 0.20;
  w_pitch := 0.10;
  w_condition := 0.10;
  min_usable_area := 400;
  max_shading := 40;
  optimal_azimuth := 180;
  optimal_pitch := 25
|}.

Record component_scores : Type := {
  orientation : Z;
  area : Z;
  shading : Z;
  pitch : Z;
  condition : Z
}.

(** The three dictionaries [analyze_roof_suitability] can return; the
    first and the last have no [suitability] key.  [analyzer] stands for
    the [weights] entry, which repeats the analyzer's own. *)
Inductive analysis : Type :=
| NoRoofData (message : string)
| Analysis (overall : Z) (suitability message : string)
           (components : component_scores) (analyzer : config)
           (recommendations : list string)
| AnalysisError (error : string).

Definition overall_score (a : analysis) : Z :=
  match a with
  | Analysis o _ _ _ _ _ => o
  | NoRoofData _ | AnalysisError _ => 0
  end.

Definition suitability_of (a : analysis) : option string :=
  match a with
  | Analysis _ s _ _ _ _ => Some s
  | NoRoofData _ | AnalysisError _ => None
  end.

Definition calculate_orientation_score (cfg : config) (roof_data : dict) : result Q :=
  match roof_data !! "azimuth" with
  | Some a =>
      azimuth ← as_num a;
      let deviation := Qabs (azimuth - optimal_azimuth cfg) in
      let deviation := if Qgtb deviation 180 then (360 - deviation)%Q else deviation in
      mret (100 - (deviation / 180) * 100)%Q
  | None =>
      match roof_data !! "primary_orientation" with
      | Some o => mret (orientation_scores_get o)
      | None => mret 50%Q
      end
  end.

(** The scoring of a usable area, written twice in the source (for the
    measured and for the estimated usable area) with the same cases. *)
Definition area_points (cfg : config) (usable_area : Q) : Q :=
  let min_area := min_usable_area cfg in
  if Qltb usable_area min_area then 0
  else if Qgeb usable_area 1200 then 100
  else if Qgeb usable_area 800 then 80 + (usable_area - 800) * 20 / 400
  else 50 + (usable_area - min_area) * 30 / (800 - min_area).

Definition calculate_area_score (cfg : config) (roof_data : dict) : result Q :=
  match roof_data !! "usable_roof_area" with
  | Some a =>
      usable_area ← as_num a;
      mret (area_points cfg usable_area)
  | None =>
      match roof_data !! "total_roof_area" with
      | Some t =>
          total_area ← as_num t;
          let estimated_usable := (total_area * 0.6)%Q in
          mret (area_points cfg estimated_usable)
      | None => mret 0%Q
      end
  end.

Definition calculate_shading_score (cfg : config) (roof_data : dict) : result Q :=
  match roof_data !! "shading_percentage" with
  | Some s =>
      shading_pct ← as_num s;
      if Qgtb shading_pct (max_shading cfg) then mret 0%Q
      else
        ratio ← py_div shading_pct (max_shading cfg);
        mret (100 - ratio * 100)%Q
  | None => mret 50%Q
  end.

Definition calculate_pitch_score (cfg : config) (roof_data : dict) : result Q :=
  match roof_data !! "pitch" with
  | Some p =>
      pitch ← as_num p;
      let deviation := Qabs (pitch - optimal_pitch cfg) in
      if Qgeb deviation 30 then mret 0%Q
      else mret (100 - (deviation / 30) * 100)%Q
  | None => mret 50%Q
  end.

Definition calculate_condition_score (cfg : config) (roof_data : dict) : result Q :=
  match roof_data !! "roof_condition" with
  | Some c =>
      condition ← str_lower c;
      mret (condition_scores_get condition)
  | None =>
      match roof_data !! "roof_age" with
      | Some a =>
          age ← as_num a;
          if Qleb age 2 then mret 100%Q
          else if Qleb age 5 then mret 90%Q
          else if Qleb age 10 then mret 75%Q
          else if Qleb age 15 then mret 60%Q
          else if Qleb age 20 then mret 40%Q
          else mret 20%Q
      | None => mret 50%Q
      end
  end.

(** The scores before rounding, with the verdict (lines 70-107). *)
Record assessment : Type := {
  orientation_score : Q;
  area_score : Q;
  shading_score : Q;
  pitch_score : Q;
  condition_score : Q;
  overall_raw : Q;
  suitability : string;
  message : string
}.

Definition assess (cfg : config) (roof_data : dict) : result assessment :=
  o ← calculate_orientation_score cfg roof_data;
  a ← calculate_area_score cfg roof_data;
  s ← calculate_shading_score cfg roof_data;
  p ← calculate_pitch_score cfg roof_data;
  c ← calculate_condition_score cfg roof_data;
  let '(overall, suit, msg) :=
    if Qeq_bool a 0 || Qeq_bool s 0 then
      (0%Q, "unsuitable",
       "Roof does not meet minimum requirements for solar installation")
    else
      let overall :=
        (o * w_orientation cfg + a * w_area cfg + s * w_shading cfg +
         p * w_pitch cfg + c * w_condition cfg)%Q in
      if Qgeb overall 80 then
        (overall, "excellent", "Roof is excellent for solar installation")
      else if Qgeb overall 65 then
        (overall, "good", "Roof is well-suited for solar installation")
      else if Qgeb overall 50 then
        (overall, "average", "Roof is acceptable for solar installation")
      else if Qgeb overall 35 then
        (overall, "poor", "Roof has significant limitations for solar installation")
      else
        (overall, "unsuitable", "Roof is not recommended for solar installation") in
  mret {| orientation_score := o; area_score := a; shading_score := s;
          pitch_score := p; condition_score := c;
          overall_raw := overall; suitability := suit; message := msg |}.

Section Analyze.

(** [generate_recommendations] past its first test appends hints drawn
    from the individual fields.  No score depends on them, so that part
    is a parameter here, free to return any list or to raise. *)
Variable recommendations_rest : dict -> Q -> result (list string).

Definition generate_recommendations (roof_data : dict) (overall : Q)
  : result (list string) :=
  if Qltb overall 35 then
    mret ["This roof is not well-suited for solar installation. Consider alternative options."]
  else recommendations_rest roof_data overall.

(** The body of the [try] block of [analyze_roof_suitability]. *)
Definition analyze_roof_suitability_body (cfg : config) (roof_data : dict)
  : result analysis :=
  a ← assess cfg roof_data;
  recs ← generate_recommendations roof_data (overall_raw a);
  mret (Analysis (py_round (overall_raw a)) (suitability a) (message a)
          {| orientation := py_round (orientation_score a);
             area := py_round (area_score a);
             shading := py_round (shading_score a);
             pitch := py_round (pitch_score a);
             condition := py_round (condition_score a) |}
          cfg recs).

Definition analyze_roof_suitability (cfg : config) (roof_data : option dict)
  : result analysis :=
  match roof_data with
  | None => mret (NoRoofData "No roof data available")
  | Some r =>
      if negb (dict_truthy roof_data) then mret (NoRoofData "No roof data available")
      else
        try_except (analyze_roof_suitability_body cfg r)
                   (fun e => mret (AnalysisError (exn_str e)))
  end.

End Analyze.

(** Sample records. *)
Definition roof_sample : dict :=
  <["usable_roof_area" := VNum 1000]>
    (<["primary_orientation" := VStr "S"]>
       (<["shading_percentage" := VNum 5]>
          (<["pitch" := VNum 25]> {[ "roof_condition" := VStr "good" ]}))).

Definition roof_small_bad_pitch : dict :=
  <["usable_roof_area" := VNum 399]> {[ "pitch" := VStr "steep" ]}.

Definition roof_small : dict := {[ "usable_roof_area" := VNum 399 ]}.

Definition unsuitable_message : string :=
  "Roof does not meet minimum requirements for solar installation".

Definition not_suited_recommendation : string :=
  "This roof is not well-suited for solar installation. Consider alternative options.".

(** A remainder of [generate_recommendations] that adds nothing. *)
Definition no_further_recommendations : dict -> Q -> result (list string) :=
  fun _ _ => Ok [].

(** Readings of a result used to state the properties. *)
Definition components_of (a : analysis) : option component_scores :=
  match a with
  | Analysis _ _ _ c _ _ => Some c
  | NoRoofData _ | AnalysisError _ => None
  end.

Definition in_range (z : Z) : Prop := 0 <= z <= 100.

Definition components_in_range (c : component_scores) : Prop :=
  in_range (orientation c) /\ in_range (area c) /\ in_range (shading c) /\
  in_range (pitch c) /\ in_range (condition c).

(** An azimuth within 0..360 and a shading percentage that is not
    negative, where the record has them as numbers. *)
Definition roof_fields_in_range (roof_data : dict) : bool :=
  match roof_data !! "azimuth" with
  | Some (VNum az) => Qleb 0 az && Qleb az 360
  | _ => true
  end &&
  match roof_data !! "shading_percentage" with
  | Some (VNum s) => Qleb 0 s
  | _ => true
  end.

(** The verdict of [assess] as a function of the five scores. *)
Definition verdict (cfg : config) (o a s p c : Q) : Q * string * string :=
  if Qeq_bool a 0 || Qeq_bool s 0 then
    (0%Q, "unsuitable",
     "Roof does not meet minimum requirements for solar installation")
  else
    let overall :=
      (o * w_orientation cfg + a * w_area cfg + s * w_shading cfg +
       p * w_pitch cfg + c * w_condition cfg)%Q in
    if Qgeb overall 80 then
      (overall, "excellent", "Roof is excellent for solar installation")
    else if Qgeb overall 65 then
      (overall, "good", "Roof is well-suited for solar installation")
    else if Qgeb overall 50 then
      (overall, "average", "Roof is acceptable for solar installation")
    else if Qgeb overall 35 then
      (overall, "poor", "Roof has significant limitations for solar installation")
    else
      (overall, "unsuitable", "Roof is not recommended for solar installation").

(** The bands of the returned overall score, rounding included. *)
Definition band_matches (suit : string) (overall : Z) : Prop :=
  (suit = "excellent" /\ 80 <= overall) \/
  (suit = "good" /\ 65 <= overall <= 80) \/
  (suit = "average" /\ 50 <= overall <= 65) \/
  (suit = "poor" /\ 35 <= overall <= 50) \/
  (suit = "unsuitable" /\ overall <= 35).

(** A roof whose weighted score is 79.6: south, 1200 sq ft, 20.8 percent
    shading, no pitch and no condition on record. *)
Definition roof_just_below_excellent : dict :=
  <["primary_orientation" := VStr "S"]>
    (<["usable_roof_area" := VNum 1200]> {[ "shading_percentage" := VNum 20.8 ]}).

Definition roof_without_area : dict :=
  <["primary_orientation" := VStr "S"]> {[ "pitch" := VNum 25 ]}.

End RoofAnalyzer.

(** ** RoofDataCollector ([src/roof_data.py]) *)

Module RoofData.

(** [int(x)] of a number: truncation towards zero. *)
Definition py_int (q : Q) : Z :=
  if Qle_bool 0 q then Qfloor q else Qceiling q.

(** [orientation_factors.get(orientation, 0.9)] *)
Definition orientation_factors_get (v : pyval) : Q :=
  if eq_str v "S" then 1.0
  else if eq_str v "SE" then 0.95
  else if eq_str v "SW" then 0.95
  else if eq_str v "E" then 0.85
  else if eq_str v "W" then 0.85
  else if eq_str v "NE" then 0.75
  else if eq_str v "NW" then 0.75
  else if eq_str v "N" then 0.65
  else if eq_str v "Unknown" then 0.9
  else 0.9.

Record financial_metrics : Type := {
  annual_savings : Q;
  system_cost : Q;
  payback_period : Q
}.

(** The dictionaries [estimate_solar_potential] can return: the
    estimate, with the financial entries when utility data was given, or
    the empty dictionary of the exception handler. *)
Inductive potential : Type :=
| Potential (system_size annual_production : Q) (num_panels : Z)
            (financial : option financial_metrics)
| NoPotential.

(** The body of the [try] block of [estimate_solar_potential]. *)
Definition estimate_solar_potential_body (roof_data : dict)
    (utility_data : option dict) : result potential :=
  let usable_area := dict_get "usable_roof_area" (VNum 0) roof_data in
  let orientation := dict_get "primary_orientation" (VStr "S") roof_data in
  let pitch := dict_get "pitch" (VNum 20) roof_data in
  let solar_irradiance := 5.0%Q in
  let orientation_factor := orientation_factors_get orientation in
  p ← as_num pitch;
  let pitch_factor :=
    if Qltb p 10 then 0.9%Q else if Qgtb p 40 then 0.95%Q else 1.0%Q in
  let panel_area := 17.5%Q in
  let panel_power := 0.3%Q in
  a ← as_num usable_area;
  let num_panels := py_int (a / panel_area) in
  let system_size := (inject_Z num_panels * panel_power)%Q in
  let annual_production :=
    (system_size * solar_irradiance * 365 * orientation_factor * pitch_factor * 0.75)%Q in
  financial ←
    match utility_data with
    | Some u =>
        if dict_truthy utility_data then
          rate ← as_num (dict_get "residential" (VNum 0.12) u);
          let savings := (annual_production * rate)%Q in
          let cost := (system_size * 1000 * 3)%Q in
          let payback := if Qgtb savings 0 then (cost / savings)%Q else 0%Q in
          mret (Some {| annual_savings := savings; system_cost := cost;
                        payback_period := payback |})
        else mret None
    | None => mret None
    end;
  mret (Potential system_size annual_production num_panels financial).

Definition estimate_solar_potential (roof_data : dict) (utility_data : option dict)
  : result potential :=
  try_except (estimate_solar_potential_body roof_data utility_data)
             (fun _ => mret NoPotential).

(** [roof_data] with its usable area set to [a]. *)
Definition with_usable_area (a : Q) (roof_data : dict) : dict :=
  <["usable_roof_area" := VNum a]> roof_data.

Definition payback_of (r : potential) : option Q :=
  match r with
  | Potential _ _ _ (Some f) => Some (payback_period f)
  | _ => None
  end.

(** The pitch factor of [estimate_solar_potential]. *)
Definition pitch_factor_of (p : Q) : Q :=
  if Qltb p 10 then 0.9%Q else if Qgtb p 40 then 0.95%Q else 1.0%Q.

End RoofData.

(** ** UtilityDataCollector ([src/utility_data.py]) *)

Module UtilityData.

(** [latitude > c1 and longitude (>|<) c2]: the longitude is looked at
    only when the first test holds. *)
Definition both (latitude : pyval) (c1 : Q) (longitude : pyval)
    (test : Q -> Q -> bool) (c2 : Q) : result bool :=
  la ← as_num latitude;
  if Qgtb la c1 then lo ← as_num longitude; mret (test lo c2)
  else mret false.

Definition get_utility_provider_by_location (latitude longitude : pyval)
  : result string :=
  austin ← both latitude 30.2 longitude Qgtb (-97.8);
  if austin : bool then mret "Austin Energy" else
  san_antonio ← both latitude 29.3 longitude Qgtb (-98.6);
  if san_antonio : bool then mret "CPS Energy" else
  el_paso ← both latitude 31.7 longitude Qltb (-106.3);
  if el_paso : bool then mret "El Paso Electric" else
  houston ← both latitude 29.5 longitude Qgtb (-95.5);
  if houston : bool then mret "Centerpoint Energy" else
  dallas ← both latitude 32.7 longitude Qgtb (-96.8);
  if dallas : bool then mret "Oncor Electric" else
  mret "Green Mountain Energy".

Record net_metering_info : Type := {
  has_net_metering : bool;
  net_metering_rate : Q;
  notes : string
}.

(** [net_metering_utilities.get(utility_provider, default_response)] *)
Definition check_net_metering_availability (utility_provider : string)
  : net_metering_info :=
  if String.eqb utility_provider "Austin Energy" then
    {| has_net_metering := true; net_metering_rate := 0.097;
       notes := "Value of Solar Tariff instead of traditional net metering" |}
  else if String.eqb utility_provider "CPS Energy" then
    {| has_net_metering := true; net_metering_rate := 0.09;
       notes := "Net billing at avoided cost rate" |}
  else if String.eqb utility_provider "El Paso Electric" then
    {| has_net_metering := true; net_metering_rate := 0.08;
       notes := "Limited net metering available" |}
  else if String.eqb utility_provider "Green Mountain Energy" then
    {| has_net_metering := true; net_metering_rate := 0.11;
       notes := "Renewable Rewards buyback program" |}
  else
    {| has_net_metering := false; net_metering_rate := 0.0;
       notes := "No net metering program available" |}.

End UtilityData.

(** ** DataEnrichmentPipeline ([src/data_enrichment.py]) *)

Module DataEnrichment.

(** [_meets_basic_criteria]; not inside a [try]. *)
Definition meets_basic_criteria (property_data : dict) : result bool :=
  property_type ← str_lower (dict_get "property_type" (VStr "") property_data);
  if negb (String.eqb property_type "single-family") then mret false
  else if negb (truthy (dict_get "is_owner_occupied" (VBool false) property_data))
  then mret false
  else if truthy (dict_get "has_solar_installation" (VBool false) property_data)
  then mret false
  else if truthy (dict_get "has_solar_permit" (VBool false) property_data)
  then mret false
  else mret true.

(** The property value is absent or a number. *)
Definition property_value_numeric (property_data : dict) : bool :=
  match property_data !! "property_value" with
  | Some (VNum _) | Some (VBool _) | None => true
  | Some _ => false
  end.

Definition property_lowercase_type : dict :=
  <["property_type" := VStr "single-family"]> {[ "is_owner_occupied" := VBool true ]}.

End DataEnrichment.

(** * Properties *)

(** ** Comparisons and rounding *)

Lemma Qle_bool_false (x y : Q) : Qle_bool x y = false -> (y < x)%Q.
Proof.
  intros H. destruct (Qlt_le_dec y x) as [Hlt | Hle]; [exact Hlt |].
  apply Qle_bool_iff in Hle. congruence.
Qed.

Lemma Qeq_bool_false (x y : Q) : Qeq_bool x y = false -> ~ (x == y)%Q.
Proof. intros H E. apply Qeq_bool_iff in E. congruence. Qed.

(** Case analysis on the next rational test of the goal, leaving the
    outcome as an order fact in the context. *)
Ltac qtest :=
  match goal with
  | |- context [Qle_bool ?x ?y] =>
      let H := fresh "Hq" in
      destruct (Qle_bool x y) eqn:H;
      [apply Qle_bool_iff in H | apply Qle_bool_false in H]
  | |- context [Qeq_bool ?x ?y] =>
      let H := fresh "Hq" in
      destruct (Qeq_bool x y) eqn:H;
      [apply Qeq_bool_iff in H | apply Qeq_bool_false in H]
  end.

Ltac qcases := unfold Qltb, Qgeb, Qgtb, Qleb in *; repeat (qtest; simpl).

Lemma py_round_bounds (a b : Z) (q : Q) :
  (inject_Z a <= q)%Q -> (q <= inject_Z b)%Q -> a <= py_round q <= b.
Proof.
  intros Ha Hb.
  assert (Hfa : a <= Qfloor q).
  { rewrite <- (Qfloor_Z a). apply Qfloor_resp_le. exact Ha. }
  assert (Hfb : Qfloor q <= b).
  { rewrite <- (Qfloor_Z b). apply Qfloor_resp_le. exact Hb. }
  unfold py_round.
  destruct (Qcompare_spec (q - inject_Z (Qfloor q)) (1 # 2)) as [E | L | G].
  - destruct (Z.even (Qfloor q)); [lia |].
    destruct (Z.eq_dec (Qfloor q) b) as [Eb | Nb]; [| lia].
    rewrite Eb in E. lra.
  - lia.
  - destruct (Z.eq_dec (Qfloor q) b) as [Eb | Nb]; [| lia].
    rewrite Eb in G. lra.
Qed.

Lemma py_round_Z (z : Z) : py_round (inject_Z z) = z.
Proof.
  unfold py_round. rewrite Qfloor_Z.
  destruct (Qcompare_spec (inject_Z z - inject_Z z) (1 # 2)) as [E | L | G];
    [lra | reflexivity | lra].
Qed.

Example py_round_ties_to_even :
  py_round 87.5 = 88 /\ py_round 2.5 = 2 /\ py_round 3.5 = 4 /\ py_round (-0.5) = 0.
Proof. repeat split; reflexivity. Qed.

#[global] Instance py_round_proper : Proper (Qeq ==> eq) py_round.
Proof.
  intros x y E. unfold py_round.
  rewrite (Qfloor_comp _ _ E).
  assert (Ec : ((x - inject_Z (Qfloor y)) ?= (1 # 2))%Q
               = ((y - inject_Z (Qfloor y)) ?= (1 # 2))%Q).
  { apply Qcompare_comp; [rewrite E |]; reflexivity. }
  rewrite Ec. reflexivity.
Qed.

(** Division by a literal, read as multiplication by its inverse. *)
Ltac qdiv :=
  unfold Qdiv in *;
  repeat match goal with
  | |- context [Qinv ?c] =>
      let v := eval vm_compute in (Qinv c) in progress change (Qinv c) with v
  | H : context [Qinv ?c] |- _ =>
      let v := eval vm_compute in (Qinv c) in progress change (Qinv c) with v in H
  end.

Ltac qlra := unfold inject_Z in *; qdiv; lra.

Lemma bind_Ok {A B} (m : result A) (f : A -> result B) (b : B) :
  (m ≫= f) = Ok b -> exists a, m = Ok a /\ f a = Ok b.
Proof. destruct m as [a | e]; simpl; [eauto | discriminate]. Qed.

Lemma try_except_total {A} (body : result A) (h : exn -> A) :
  exists a, try_except body (fun e => mret (h e)) = Ok a /\
            (body = Ok a \/ exists e, body = Raise e /\ a = h e).
Proof.
  destruct body as [a | e]; simpl.
  - exists a. auto.
  - exists (h e). split; [reflexivity | right; eauto].
Qed.

(** ** Lead scoring *)

Module LeadScoringProps.
Import LeadScoring.

Lemma bill_points_range (monthly_bill b : Q) :
  (if Qltb monthly_bill 120 then mret 0%Q
   else if Qgeb monthly_bill 300 then mret 100%Q
   else if Qgeb monthly_bill 200 then mret (80 + (monthly_bill - 200) * 20 / 100)%Q
   else mret (50 + (monthly_bill - 120) * 30 / 80)%Q) = Ok b ->
  (0 <= b /\ b <= 100)%Q.
Proof. qcases; intros [= <-]; qlra. Qed.

Lemma bill_score_range p u b :
  calculate_bill_score p u = Ok b -> (0 <= b /\ b <= 100)%Q.
Proof.
  unfold calculate_bill_score. intros H.
  apply bind_Ok in H as (mb & _ & H). eapply bill_points_range, H.
Qed.

Lemma property_score_range p s :
  calculate_property_score p = Ok s -> (0 <= s /\ s <= 100)%Q.
Proof.
  unfold calculate_property_score.
  destruct (p !! "is_owner_occupied") as [v |]; [destruct (truthy v) |];
    try (intros [= <-]; lra);
    (destruct (p !! "property_type") as [t |];
     [destruct (eq_str t "Single-Family"); [| destruct (eq_str t "Multi-Family")] |]);
    (destruct (p !! "property_value") as [pv |];
     [destruct (as_num pv) as [value | e]; simpl; [| discriminate] |]; simpl);
    (destruct (p !! "has_solar_permit") as [hp |]; [destruct (truthy hp) |]);
    qcases; intros [= <-]; lra.
Qed.

Lemma metering_score_range p u s :
  calculate_net_metering_score p u = Ok s -> (0 <= s /\ s <= 100)%Q.
Proof.
  unfold calculate_net_metering_score.
  destruct u as [d |]; [| intros [= <-]; lra].
  destruct (negb (dict_truthy (Some d))); [intros [= <-]; lra |].
  (destruct (d !! "net_metering_available") as [v |]; [destruct (truthy v) |]);
    (destruct (d !! "residential") as [rv |];
     [destruct (as_num rv) as [rate | e]; simpl; [| discriminate] |]);
    qcases; intros [= <-]; lra.
Qed.

Lemma homeowner_score_range p o s :
  calculate_homeowner_score p o = Ok s -> (0 <= s /\ s <= 100)%Q.
Proof.
  unfold calculate_homeowner_score.
  destruct o as [d |]; [| intros [= <-]; lra].
  destruct (negb (dict_truthy (Some d))); [intros [= <-]; lra |].
  destruct (match d !! "phone" with Some v => truthy v | None => false end);
    destruct (match d !! "email" with Some v => truthy v | None => false end);
    simpl;
    (destruct (d !! "do_not_call") as [v |]; [destruct (truthy v) |]);
    (destruct (d !! "ownership_years") as [yv |];
     [destruct (as_num yv) as [years | e]; simpl; [| discriminate] |]);
    qcases; intros [= <-]; lra.
Qed.

(** What a returning body has computed: the five component calls
    returned, and the result is one of the three verdicts. *)
Lemma body_Ok cfg p u r o res :
  calculate_overall_score_body cfg p u r o = Ok res ->
  exists bill roof property metering homeowner rr,
    calculate_bill_score p u = Ok bill /\
    calculate_roof_score p r = Ok roof /\
    calculate_property_score p = Ok property /\
    calculate_net_metering_score p u = Ok metering /\
    calculate_homeowner_score p o = Ok homeowner /\
    round_val roof = Ok rr /\
    let pid := dict_get "property_id" (VStr "unknown") p in
    let comps := {| bill_score := py_round bill; roof_score := rr;
                    property_score := py_round property;
                    metering_score := py_round metering;
                    homeowner_score := py_round homeowner |} in
    ((Qltb bill (min_monthly_bill cfg) = true /\
      res = Scored pid (py_round 0) (qualify cfg 0) true
              (Some "Monthly bill below minimum threshold") comps cfg) \/
     (exists roofq, Qltb bill (min_monthly_bill cfg) = false /\
        as_num roof = Ok roofq /\ Qltb roofq (min_roof_score cfg) = true /\
        res = Scored pid (py_round 0) (qualify cfg 0) true
                (Some "Roof unsuitable for solar installation") comps cfg) \/
     (exists roofq, Qltb bill (min_monthly_bill cfg) = false /\
        as_num roof = Ok roofq /\ Qltb roofq (min_roof_score cfg) = false /\
        let overall := weighted_sum cfg bill roofq property metering homeowner in
        res = Scored pid (py_round overall) (qualify cfg overall) false None comps cfg)).
Proof.
  unfold calculate_overall_score_body. intros H.
  apply bind_Ok in H as (bill & Hb & H).
  apply bind_Ok in H as (roof & Hr & H).
  apply bind_Ok in H as (property & Hp & H).
  apply bind_Ok in H as (metering & Hm & H).
  apply bind_Ok in H as (homeowner & Hh & H).
  apply bind_Ok in H as ([[d reason] overall] & Hv & H).
  apply bind_Ok in H as (rr & Hrr & H).
  injection H as <-.
  exists bill, roof, property, metering, homeowner, rr.
  repeat (split; [assumption |]).
  destruct (Qltb bill (min_monthly_bill cfg)) eqn:Eb.
  - injection Hv as <- <- <-. left. auto.
  - right. apply bind_Ok in Hv as (roofq & Hq & Hv).
    destruct (Qltb roofq (min_roof_score cfg)) eqn:Er;
      injection Hv as <- <- <-; [left | right]; exists roofq; auto.
Qed.

(** C2: under the default configuration every result of the non-error
    path is disqualified with overall score 0, the bill score (at most
    100) being compared with the minimum monthly bill of 120. *)
Theorem default_config_always_disqualifies p u r o res :
  calculate_overall_score_body default_config p u r o = Ok res ->
  calculate_overall_score default_config p u r o = Ok res /\
  disqualified_of res = Some true /\ overall_score res = 0 /\
  (exists b, calculate_bill_score p u = Ok b /\ (0 <= b <= 100)%Q /\
             Qltb b (min_monthly_bill default_config) = true).
Proof.
  intros H. split; [unfold calculate_overall_score; rewrite H; reflexivity |].
  apply body_Ok in H
    as (bill & roof & property & metering & homeowner & rr & Hb & _ & _ & _ & _ & _ & H).
  pose proof (bill_score_range _ _ _ Hb) as Hrange.
  assert (Hlt : Qltb bill (min_monthly_bill default_config) = true).
  { simpl. unfold Qltb. destruct (Qle_bool 120 bill) eqn:E; [| reflexivity].
    apply Qle_bool_iff in E. lra. }
  destruct H as [[_ ->] | [(roofq & Hf & _) | (roofq & Hf & _)]];
    try congruence.
  simpl. repeat split; try reflexivity. exists bill. auto.
Qed.

Lemma default_config_always_disqualifies_witness :
  calculate_overall_score_body default_config ∅ (Some (utility_bill 250)) None None
    = Ok (scored_default 90 50) /\
  disqualified_of (scored_default 90 50) = Some true /\
  overall_score (scored_default 90 50) = 0.
Proof.
  assert (H : calculate_overall_score_body default_config ∅
                (Some (utility_bill 250)) None None = Ok (scored_default 90 50))
    by (vm_compute; reflexivity).
  split; [exact H |].
  destruct (default_config_always_disqualifies _ _ _ _ _ H) as (_ & Hd & Ho & _).
  split; assumption.
Defined.

(** C1: a bill of $119 gives overall score 0 and "unsuitable"; a bill of
    $120 gives a bill score of exactly 50, and yet the lead is reported
    as disqualified with overall score 0: the bill score 50 is compared
    with the dollar threshold 120. *)
Theorem bill_120_scores_50_but_is_disqualified :
  (exists res,
      calculate_overall_score default_config ∅ (Some (utility_bill 119)) None None
        = Ok res /\
      overall_score res = 0 /\ qualification_of res = "unsuitable") /\
  (exists b, calculate_bill_score ∅ (Some (utility_bill 120)) = Ok b /\ (b == 50)%Q) /\
  (exists res,
      calculate_overall_score default_config ∅ (Some (utility_bill 120)) None None
        = Ok res /\
      disqualified_of res = Some true /\ overall_score res = 0 /\
      qualification_of res = "unsuitable").
Proof.
  split; [| split].
  - exists (scored_default 0 50). vm_compute. auto.
  - eexists. split; [vm_compute; reflexivity | reflexivity].
  - exists (scored_default 50 50). vm_compute. auto.
Qed.

(** C3, as stated, fails: a pre-computed roof score of 150 is returned
    as the roof component as it is. *)
Lemma precomputed_roof_score_not_clamped :
  exists res c,
    calculate_overall_score default_config ∅ None (Some (roof_precomputed 150)) None
      = Ok res /\
    components_of res = Some c /\ roof_score c = 150 /\ ~ components_in_range c.
Proof.
  eexists. eexists. split; [vm_compute; reflexivity |].
  split; [reflexivity |]. split; [reflexivity |].
  unfold components_in_range, in_range. simpl. lia.
Qed.

Lemma round_val_range v q z :
  as_num v = Ok q -> (0 <= q <= 100)%Q -> round_val v = Ok z -> in_range z.
Proof.
  destruct v as [| [] | x | x]; simpl; try discriminate.
  - intros _ _ [= <-]. unfold in_range. lia.
  - intros _ _ [= <-]. unfold in_range. lia.
  - intros [= ->] Hq [= <-]. apply (py_round_bounds 0 100); qlra.
Qed.

Lemma roof_characteristics_range d s :
  (forall q, d !! "shading_percentage" = Some (VNum q) -> (0 <= q)%Q) ->
  roof_score_from_characteristics d = Ok s -> (0 <= s /\ s <= 100)%Q.
Proof.
  intros Hshade. unfold roof_score_from_characteristics.
  assert (Ho : forall v, (20 <= orientation_scores_get v /\
                          orientation_scores_get v <= 100)%Q).
  { intros v. unfold orientation_scores_get.
    repeat match goal with |- context [eq_str v ?k] => destruct (eq_str v k) end; lra. }
  assert (Hc : forall c, (10 <= condition_scores_get c /\
                          condition_scores_get c <= 100)%Q).
  { intros c. unfold condition_scores_get.
    repeat match goal with |- context [String.eqb c ?k] => destruct (String.eqb c k) end;
      lra. }
  set (s0 := match d !! "primary_orientation" with
             | Some o => (0 + orientation_scores_get o * 0.4)%Q
             | None => 0%Q
             end).
  assert (H0 : (0 <= s0 /\ s0 <= 40)%Q).
  { subst s0. destruct (d !! "primary_orientation") as [o |]; [| lra].
    specialize (Ho o). lra. }
  clearbody s0. intros H.
  apply bind_Ok in H as (s1 & H1 & H).
  assert (H1r : (0 <= s1 /\ s1 <= 70)%Q).
  { destruct (d !! "usable_roof_area") as [a |]; [| injection H1 as <-; lra].
    apply bind_Ok in H1 as (ua & _ & H1). revert H1.
    qcases; intros [= <-]; qlra. }
  apply bind_Ok in H as (s2 & H2 & H).
  assert (H2r : (0 <= s2 /\ s2 <= 90)%Q).
  { destruct (d !! "shading_percentage") as [sv |] eqn:Es; [| injection H2 as <-; lra].
    apply bind_Ok in H2 as (sp & Hsp & H2).
    assert (Hnn : (0 <= sp)%Q).
    { destruct sv as [| [] | x | x]; simpl in Hsp; try discriminate;
        injection Hsp as <-; [lra | lra | apply Hshade; reflexivity]. }
    revert H2. qcases; intros [= <-]; qlra. }
  destruct (d !! "roof_condition") as [c |]; [| injection H as <-; lra].
  apply bind_Ok in H as (cs & _ & H). injection H as <-.
  specialize (Hc cs). lra.
Qed.

Lemma roof_score_range p r v :
  roof_input_in_range r = true ->
  calculate_roof_score p r = Ok v ->
  forall z, round_val v = Ok z -> in_range z.
Proof.
  unfold calculate_roof_score, roof_input_in_range.
  assert (H50 : forall z, round_val (VNum 50) = Ok z -> in_range z).
  { intros z. apply (round_val_range _ 50); [reflexivity | lra]. }
  destruct r as [d |]; [| intros _ [= <-]; exact H50].
  destruct (negb (dict_truthy (Some d))); [intros _ [= <-]; exact H50 |].
  destruct (d !! "overall_score") as [w |].
  - intros Hin [= <-] z.
    destruct w as [| [] | q | x]; simpl; try discriminate;
      try (intros [= <-]; unfold in_range; lia).
    intros [= <-]. apply andb_prop in Hin as [Hlo Hhi].
    apply Qle_bool_iff in Hlo, Hhi.
    apply (py_round_bounds 0 100); assumption.
  - intros Hin H z. apply bind_Ok in H as (s & Hs & H). injection H as <-.
    apply (round_val_range _ s); [reflexivity |].
    apply roof_characteristics_range in Hs; [lra |].
    intros q Eq. rewrite Eq in Hin. apply Qle_bool_iff in Hin. exact Hin.
Qed.

(** C3, amended: every component score of a scored result lies in
    0..100, provided the roof record's pre-computed [overall_score], if
    any, is within 0..100 and, without one, its shading percentage is not
    negative. *)
Theorem components_in_range_of_bounded_roof cfg p u r o res c :
  roof_input_in_range r = true ->
  calculate_overall_score cfg p u r o = Ok res ->
  components_of res = Some c ->
  components_in_range c.
Proof.
  intros Hin Hres Hc. unfold calculate_overall_score in Hres.
  destruct (calculate_overall_score_body cfg p u r o) as [res' | e] eqn:Hbody;
    simpl in Hres; injection Hres as <-; [| discriminate].
  apply body_Ok in Hbody
    as (bill & roof & property & metering & homeowner & rr
        & Hb & Hr & Hp & Hm & Hh & Hrr & H).
  apply bill_score_range in Hb. apply property_score_range in Hp.
  apply metering_score_range in Hm. apply homeowner_score_range in Hh.
  pose proof (roof_score_range _ _ _ Hin Hr _ Hrr) as Hroof.
  assert (Hcomp : c = {| bill_score := py_round bill; roof_score := rr;
                         property_score := py_round property;
                         metering_score := py_round metering;
                         homeowner_score := py_round homeowner |}).
  { destruct H as [[_ ->] | [(roofq & _ & _ & _ & ->) | (roofq & _ & _ & _ & ->)]];
      simpl in Hc; congruence. }
  subst c. unfold components_in_range; simpl.
  repeat split; try apply Hroof;
    apply (py_round_bounds 0 100); qlra.
Qed.

Lemma components_in_range_of_bounded_roof_witness :
  roof_input_in_range (Some (roof_precomputed 75)) = true /\
  calculate_overall_score default_config ∅ (Some (utility_bill 250))
    (Some (roof_precomputed 75)) None = Ok (scored_default 90 75) /\
  components_of (scored_default 90 75)
    = Some {| bill_score := 90; roof_score := 75; property_score := 0;
              metering_score := 0; homeowner_score := 50 |} /\
  components_in_range {| bill_score := 90; roof_score := 75; property_score := 0;
                         metering_score := 0; homeowner_score := 50 |}.
Proof.
  assert (H1 : roof_input_in_range (Some (roof_precomputed 75)) = true)
    by (vm_compute; reflexivity).
  assert (H2 : calculate_overall_score default_config ∅ (Some (utility_bill 250))
                 (Some (roof_precomputed 75)) None = Ok (scored_default 90 75))
    by (vm_compute; reflexivity).
  split; [exact H1 |]. split; [exact H2 |]. split; [reflexivity |].
  exact (components_in_range_of_bounded_roof _ _ _ _ _ _ _ H1 H2 eq_refl).
Defined.

(** C4, as stated, fails: with the minimum requirements configured to 0
    a lead whose five components are all 0 is not disqualified and has
    overall score 0. *)
Lemma zero_score_without_disqualification :
  exists res,
    calculate_overall_score no_minimum_config ∅ (Some utility_provider_only)
      (Some (roof_precomputed 0)) (Some owner_without_contact) = Ok res /\
    calculate_overall_score_body no_minimum_config ∅ (Some utility_provider_only)
      (Some (roof_precomputed 0)) (Some owner_without_contact) = Ok res /\
    overall_score res = 0 /\ disqualified_of res = Some false /\
    ~ (overall_score res = 0 <-> disqualified_of res = Some true).
Proof.
  eexists. split; [vm_compute; reflexivity |].
  split; [vm_compute; reflexivity |].
  split; [reflexivity |]. split; [reflexivity |].
  simpl. intros [H _]. specialize (H eq_refl). discriminate.
Qed.

Lemma disqualified_implies_zero_score cfg p u r o res :
  calculate_overall_score_body cfg p u r o = Ok res ->
  disqualified_of res = Some true ->
  overall_score res = 0.
Proof.
  intros H Hd. apply body_Ok in H
    as (bill & roof & property & metering & homeowner & rr & _ & _ & _ & _ & _ & _ & H).
  destruct H as [[_ ->] | [(roofq & _ & _ & _ & ->) | (roofq & _ & _ & _ & ->)]];
    simpl in *; [reflexivity | reflexivity | discriminate].
Qed.

(** The bill score is 0 or at least 50. *)
Lemma bill_score_zero_or_50 p u b :
  calculate_bill_score p u = Ok b -> (b == 0 \/ 50 <= b)%Q.
Proof.
  unfold calculate_bill_score. intros H.
  apply bind_Ok in H as (mb & _ & H). revert H.
  qcases; intros [= <-]; first [left; reflexivity | right; qlra].
Qed.

Lemma py_round_above_half (q : Q) : ((1 # 2) < q)%Q -> 1 <= py_round q.
Proof.
  intros H. unfold py_round.
  pose proof (Qfloor_le q) as Hlo. pose proof (Qlt_floor q) as Hhi.
  rewrite inject_Z_plus in Hhi.
  assert (H0 : 0 <= Qfloor q).
  { change 0 with (Qfloor 0). apply Qfloor_resp_le. lra. }
  destruct (Z.eq_dec (Qfloor q) 0) as [E | N].
  - rewrite E in *.
    destruct (Qcompare_spec (q - inject_Z 0) (1 # 2)) as [C | C | C];
      [unfold inject_Z in C; lra | unfold inject_Z in C; lra | lia].
  - destruct (Qcompare (q - inject_Z (Qfloor q)) (1 # 2));
      [destruct (Z.even (Qfloor q)) | |]; lia.
Qed.

(** With a bill weight of 1/100 and no other weight the converse fails
    although the minimums are positive: a bill score of 50 weighs 0.5,
    which rounds to 0. *)
Example zero_score_with_thin_bill_weight :
  exists res,
    calculate_overall_score_body thin_bill_weight_config ∅ (Some (utility_bill 120))
      None None = Ok res /\
    overall_score res = 0 /\ disqualified_of res = Some false.
Proof. eexists. split; [vm_compute; reflexivity |]. split; reflexivity. Qed.

(** C4, amended: on the non-error path a disqualified result has
    overall score 0 for every configuration and input; and for every
    configuration with a positive bill minimum, a roof minimum that is
    not negative, weights that are not negative and a bill weight of at
    least 1/50 (the default configuration is one), the overall score is
    0 only when the result is disqualified. *)
Theorem zero_score_iff_disqualified cfg p u r o res :
  calculate_overall_score_body cfg p u r o = Ok res ->
  (disqualified_of res = Some true -> overall_score res = 0) /\
  (minimums_regular cfg ->
   (overall_score res = 0 <-> disqualified_of res = Some true)).
Proof.
  intros H. split; [exact (disqualified_implies_zero_score _ _ _ _ _ _ H) |].
  intros (Mb & Mr & Wb & Wr & Wp & Wm & Wh).
  split; [| exact (disqualified_implies_zero_score _ _ _ _ _ _ H)].
  apply body_Ok in H
    as (bill & roof & property & metering & homeowner & rr
        & Hb & _ & Hp & Hm & Hh & _ & H).
  destruct H as [[_ ->] | [(roofq & _ & _ & _ & ->) | (roofq & Hbm & _ & Hrm & ->)]];
    cbn [overall_score disqualified_of]; try reflexivity.
  intros Hzero. exfalso.
  apply bill_score_zero_or_50 in Hb. apply property_score_range in Hp.
  apply metering_score_range in Hm. apply homeowner_score_range in Hh.
  unfold Qltb in Hbm, Hrm.
  apply Bool.negb_false_iff, Qle_bool_iff in Hbm.
  apply Bool.negb_false_iff, Qle_bool_iff in Hrm.
  assert (Hbill : (50 <= bill)%Q) by (destruct Hb as [Hb | Hb]; lra).
  assert (H1 : (50 * w_bill_size cfg <= bill * w_bill_size cfg)%Q)
    by (apply Qmult_le_compat_r; lra).
  assert (H2 : (0 <= roofq * w_roof_suitability cfg)%Q)
    by (apply Qmult_le_0_compat; lra).
  assert (H3 : (0 <= property * w_property_value cfg)%Q)
    by (apply Qmult_le_0_compat; lra).
  assert (H4 : (0 <= metering * w_net_metering cfg)%Q)
    by (apply Qmult_le_0_compat; lra).
  assert (H5 : (0 <= homeowner * w_homeowner cfg)%Q)
    by (apply Qmult_le_0_compat; lra).
  assert (Hpos : 1 <= py_round (weighted_sum cfg bill roofq property metering homeowner)).
  { apply py_round_above_half. unfold weighted_sum. lra. }
  lia.
Qed.

Lemma default_minimums_regular : minimums_regular default_config.
Proof. unfold minimums_regular. simpl. repeat split; discriminate. Qed.

Lemma score_scale_minimums_regular : minimums_regular score_scale_config.
Proof. unfold minimums_regular. simpl. repeat split; discriminate. Qed.

Lemma zero_score_iff_disqualified_witness :
  calculate_overall_score_body score_scale_config ∅ (Some (utility_bill 120))
    None None = Ok scored_at_120 /\
  minimums_regular score_scale_config /\
  (overall_score scored_at_120 = 0 <-> disqualified_of scored_at_120 = Some true).
Proof.
  assert (H : calculate_overall_score_body score_scale_config ∅
                (Some (utility_bill 120)) None None = Ok scored_at_120)
    by (vm_compute; reflexivity).
  split; [exact H |]. split; [exact score_scale_minimums_regular |].
  exact (proj2 (zero_score_iff_disqualified _ _ _ _ _ _ H)
           score_scale_minimums_regular).
Defined.

(** [calculate_overall_score] always returns: the result of its body,
    or the error dictionary built from the exception. *)
Lemma calculate_overall_score_returns cfg p u r o :
  exists res,
    calculate_overall_score cfg p u r o = Ok res /\
    (calculate_overall_score_body cfg p u r o = Ok res \/
     exists e,
       calculate_overall_score_body cfg p u r o = Raise e /\
       res = ScoreError (dict_get "property_id" (VStr "unknown") p) (exn_str e) /\
       overall_score res = 0 /\ qualification_of res = "error").
Proof.
  unfold calculate_overall_score.
  destruct (try_except_total (calculate_overall_score_body cfg p u r o)
              (fun e => ScoreError (dict_get "property_id" (VStr "unknown") p)
                          (exn_str e)))
    as (res & Hres & [Hbody | (e & Hbody & ->)]).
  - exists res. auto.
  - eexists. split; [exact Hres |]. right. exists e. auto.
Qed.

(** The handler is reachable: a square footage that is not a number. *)
Example overall_score_of_ill_typed_property :
  calculate_overall_score default_config property_bad_square_footage None None None
  = Ok (ScoreError (VStr "unknown") "unsupported operand type: str").
Proof. vm_compute. reflexivity. Qed.

End LeadScoringProps.

(** ** Bill estimation *)

Module BillEstimatorProps.
Import BillEstimator.

Lemma estimate_monthly_bill_returns cfg cy p u month :
  exists bill,
    estimate_monthly_bill cfg cy p u month = Ok bill /\
    (estimate_monthly_bill_body cfg cy p u month = Ok bill \/
     exists e, estimate_monthly_bill_body cfg cy p u month = Raise e /\ bill = 0%Q).
Proof.
  unfold estimate_monthly_bill.
  destruct (try_except_total (estimate_monthly_bill_body cfg cy p u month)
              (fun _ => 0%Q))
    as (bill & Hbill & [Hbody | (e & Hbody & ->)]).
  - exists bill. auto.
  - exists 0%Q. split; [exact Hbill |]. right. exists e. auto.
Qed.

(** The handler is reachable: a ZIP code that is not a string. *)
Example bill_of_numeric_zip_code :
  estimate_monthly_bill_body default_config 2026
    (<["zip_code" := VNum 78701]> property_austin) None VNone
    = Raise (AttributeError "object has no attribute 'startswith'") /\
  estimate_monthly_bill default_config 2026
    (<["zip_code" := VNum 78701]> property_austin) None VNone = Ok 0%Q.
Proof. split; vm_compute; reflexivity. Qed.

(** C5, as stated, fails: the prefix "787" is listed under the south
    zone, whose factor is 1.15, not under the north zone. *)
Lemma austin_zip_is_not_north :
  ~ (exists cf, climate_factor default_config (VStr "78701") = Ok cf /\ (cf == 1.0)%Q).
Proof.
  intros (cf & H & E). vm_compute in H. injection H as <-.
  revert E. unfold Qeq. simpl. lia.
Qed.

Lemma age_factor_2015 (cy : Z) :
  2021 <= cy <= 2030 -> age_factor cy 2015 = 0.9%Q.
Proof.
  intros H.
  assert (E : cy = 2021 \/ cy = 2022 \/ cy = 2023 \/ cy = 2024 \/ cy = 2025 \/
              cy = 2026 \/ cy = 2027 \/ cy = 2028 \/ cy = 2029 \/ cy = 2030) by lia.
  repeat (destruct E as [-> | E]; [reflexivity |]). subst cy. reflexivity.
Qed.

(** C5, amended: for the sample property in a year in which the home is
    6 to 15 years old, the medium tier gives base usage 13600/13, the
    factors are 0.9 (age), 1.0 (bedrooms), 1.15 (south zone, prefix
    "787") and 1.5 (July), and the bill is their product with the rate
    0.12, which is 63342/325 (about 194.90). *)
Theorem austin_july_bill (cy : Z) :
  2021 <= cy <= 2030 ->
  tier_of 2000 = Medium /\
  (base_usage default_config 2000 == 13600 # 13)%Q /\
  age_factor cy 2015 = 0.9%Q /\
  bedroom_factor 3 = 1.0%Q /\
  climate_factor default_config (VStr "78701") = Ok 1.15%Q /\
  month_factor default_config (VNum 7) = Ok 1.50%Q /\
  exists bill,
    estimate_monthly_bill default_config cy property_austin
      (Some (utility_rate 0.12)) (VNum 7) = Ok bill /\
    (bill == base_usage default_config 2000 * 0.9 * 1.0 * 1.15 * 1.5 * 0.12)%Q /\
    (bill == 63342 # 325)%Q.
Proof.
  intros Hcy. pose proof (age_factor_2015 cy Hcy) as Hage.
  repeat (split; [first [exact Hage | reflexivity] |]).
  unfold estimate_monthly_bill, estimate_monthly_bill_body.
  change (dict_get "square_footage" (VNum 0) property_austin) with (VNum 2000).
  change (dict_get "year_built" (VNum 2000) property_austin) with (VNum 2015).
  change (dict_get "bedrooms" (VNum 3) property_austin) with (VNum 3).
  change (dict_get "zip_code" (VStr "") property_austin) with (VStr "78701").
  change (rate_of (Some (utility_rate 0.12))) with (VNum 0.12).
  simpl as_num. cbn [mbind result_bind]. rewrite Hage.
  eexists. split; [vm_compute; reflexivity |].
  split; reflexivity.
Qed.

Lemma austin_july_bill_witness :
  2021 <= 2026 <= 2030 /\
  exists bill,
    estimate_monthly_bill default_config 2026 property_austin
      (Some (utility_rate 0.12)) (VNum 7) = Ok bill /\
    (bill == 63342 # 325)%Q.
Proof.
  assert (H : 2021 <= 2026 <= 2030) by lia.
  split; [exact H |].
  destruct (austin_july_bill 2026 H) as (_ & _ & _ & _ & _ & _ & bill & Hb & _ & Hv).
  exists bill. split; assumption.
Defined.

(** *** The base usage, tier by tier *)

Lemma tier_of_cases (s : Q) :
  (tier_of s = Small /\ s < 1200)%Q \/
  (tier_of s = Medium /\ 1200 <= s /\ s < 2500)%Q \/
  (tier_of s = Large /\ 2500 <= s /\ s < 3500)%Q \/
  (tier_of s = VeryLarge /\ 3500 <= s)%Q.
Proof. unfold tier_of. qcases; intuition lra. Qed.

Ltac base_usage_formula :=
  intros; unfold base_usage, tier_base, tier_bounds, tier_of; simpl;
  qcases; try lra; qdiv; ring.

Lemma base_usage_nonpositive (s : Q) :
  (s <= 0)%Q -> (base_usage default_config s == 700)%Q.
Proof. base_usage_formula. Qed.

Lemma base_usage_small (s : Q) :
  (0 < s)%Q -> (s < 1200)%Q ->
  (base_usage default_config s == 560 + (s - 800) * (7 # 20))%Q.
Proof. base_usage_formula. Qed.

Lemma base_usage_medium (s : Q) :
  (1200 <= s)%Q -> (s < 2500)%Q ->
  (base_usage default_config s == 800 + (s - 1200) * (4 # 13))%Q.
Proof. base_usage_formula. Qed.

Lemma base_usage_large (s : Q) :
  (2500 <= s)%Q -> (s < 3500)%Q ->
  (base_usage default_config s == 1040 + (s - 2500) * (13 # 25))%Q.
Proof. base_usage_formula. Qed.

Lemma base_usage_very_large (s : Q) :
  (3500 <= s)%Q ->
  (base_usage default_config s == 1280 + (s - 3500) * (8 # 15))%Q.
Proof. base_usage_formula. Qed.

Lemma base_usage_increasing (s1 s2 : Q) :
  (0 < s1)%Q -> (s1 < s2)%Q -> tier_of s1 = tier_of s2 ->
  (base_usage default_config s1 < base_usage default_config s2)%Q.
Proof.
  intros Hpos Hlt Htier.
  destruct (tier_of_cases s1) as [[T1 B1] | [[T1 B1] | [[T1 B1] | [T1 B1]]]];
    destruct (tier_of_cases s2) as [[T2 B2] | [[T2 B2] | [[T2 B2] | [T2 B2]]]];
    try congruence.
  - rewrite (base_usage_small s1), (base_usage_small s2); lra.
  - rewrite (base_usage_medium s1), (base_usage_medium s2); lra.
  - rewrite (base_usage_large s1), (base_usage_large s2); lra.
  - rewrite (base_usage_very_large s1), (base_usage_very_large s2); lra.
Qed.

(** *** Limits from below *)

Lemma left_limit_unique (f : Q -> Q) (a l1 l2 : Q) :
  left_limit f a l1 -> left_limit f a l2 -> (l1 == l2)%Q.
Proof.
  assert (Hlt : forall x y, left_limit f a x -> left_limit f a y -> ~ (x < y)%Q).
  { intros x y Hx Hy Hxy.
    destruct (Hx ((y - x) * (1 # 2))%Q) as (d1 & Hd1 & H1); [lra |].
    destruct (Hy ((y - x) * (1 # 2))%Q) as (d2 & Hd2 & H2); [lra |].
    set (d := if Qle_bool d1 d2 then d1 else d2).
    assert (Hd : (0 < d /\ d <= d1 /\ d <= d2)%Q).
    { subst d. qcases; lra. }
    specialize (H1 (a - d * (1 # 2))%Q). specialize (H2 (a - d * (1 # 2))%Q).
    rewrite Qabs_Qlt_condition in H1, H2.
    assert (Hs1 : (a - d1 < a - d * (1 # 2))%Q) by lra.
    assert (Hs2 : (a - d2 < a - d * (1 # 2))%Q) by lra.
    assert (Hs : (a - d * (1 # 2) < a)%Q) by lra.
    specialize (H1 Hs1 Hs). specialize (H2 Hs2 Hs). lra. }
  intros H1 H2. destruct (Q_dec l1 l2) as [[L | G] | E]; [| | exact E].
  - destruct (Hlt l1 l2 H1 H2 L).
  - destruct (Hlt l2 l1 H2 H1 G).
Qed.

(** A function that is linear with a slope in (0,1] on the last [w]
    units below [a] tends to the value its line takes at [a]. *)
Ltac linear_left_limit w formula :=
  intros eps Heps;
  exists (if Qle_bool eps w then eps else w);
  split; [qcases; lra |];
  intros s Hlo Hhi; apply Qabs_Qlt_condition;
  rewrite (formula s) by (revert Hlo; qcases; lra);
  revert Hlo; qcases; lra.

Lemma left_limit_at_1200 : left_limit (base_usage default_config) 1200 700.
Proof. linear_left_limit 100%Q base_usage_small. Qed.

Lemma left_limit_at_2500 : left_limit (base_usage default_config) 2500 1200.
Proof. linear_left_limit 100%Q base_usage_medium. Qed.

Lemma left_limit_at_3500 : left_limit (base_usage default_config) 3500 1560.
Proof. linear_left_limit 100%Q base_usage_large. Qed.

(** C8, as stated, fails at each of the three boundaries: the value at
    the boundary is not the limit from below. *)
Lemma base_usage_not_left_continuous :
  ~ left_limit (base_usage default_config) 1200 (base_usage default_config 1200) /\
  ~ left_limit (base_usage default_config) 2500 (base_usage default_config 2500) /\
  ~ left_limit (base_usage default_config) 3500 (base_usage default_config 3500).
Proof.
  repeat split; intros H.
  - pose proof (left_limit_unique _ _ _ _ left_limit_at_1200 H) as E.
    revert E. vm_compute. discriminate.
  - pose proof (left_limit_unique _ _ _ _ left_limit_at_2500 H) as E.
    revert E. vm_compute. discriminate.
  - pose proof (left_limit_unique _ _ _ _ left_limit_at_3500 H) as E.
    revert E. vm_compute. discriminate.
Qed.

(** C8, amended: base usage jumps at each tier boundary.  Approaching
    1200, 2500 and 3500 from below it tends to 700, 1200 and 1560; at
    the boundaries it is 800, 1040 and 1280. *)
Theorem base_usage_jumps_at_tier_boundaries :
  left_limit (base_usage default_config) 1200 700 /\
  (base_usage default_config 1200 == 800)%Q /\
  left_limit (base_usage default_config) 2500 1200 /\
  (base_usage default_config 2500 == 1040)%Q /\
  left_limit (base_usage default_config) 3500 1560 /\
  (base_usage default_config 3500 == 1280)%Q.
Proof.
  split; [exact left_limit_at_1200 |]. split; [reflexivity |].
  split; [exact left_limit_at_2500 |]. split; [reflexivity |].
  split; [exact left_limit_at_3500 |]. reflexivity.
Qed.

(** *** Monotonicity in the square footage *)

Lemma age_factor_pos (cy : Z) (yb : Q) : (0 < age_factor cy yb)%Q.
Proof. unfold age_factor. qcases; lra. Qed.

Lemma bedroom_factor_pos (br : Q) : (0 < bedroom_factor br)%Q.
Proof. unfold bedroom_factor. qcases; lra. Qed.

Lemma zone_loop_pos zip zones c0 c :
  Forall (fun z => (0 < base_factor z)%Q) zones ->
  (0 < c0)%Q -> zone_loop zip zones c0 = Ok c -> (0 < c)%Q.
Proof.
  intros Hz. revert c0. induction Hz as [| z zones Hpos _ IH]; intros c0 H0 H.
  - injection H as <-. exact H0.
  - simpl in H. apply bind_Ok in H as (hit & _ & H).
    apply IH in H; [exact H |]. destruct hit; assumption.
Qed.

Lemma monthly_factors_get_pos table m :
  Forall (fun kf => (0 < snd kf)%Q) table -> (0 < monthly_factors_get table m)%Q.
Proof.
  induction 1 as [| [k f] table Hf _ IH]; simpl; [lra |].
  destruct (Qeq_bool (inject_Z k) m); [exact Hf | exact IH].
Qed.

Lemma month_factor_pos cfg month mf :
  months_positive cfg -> month_factor cfg month = Ok mf -> (0 < mf)%Q.
Proof.
  intros Hm. unfold month_factor.
  assert (Hnum : (m ← as_num month;
                  if Qleb 1 m && Qleb m 12
                  then Ok (monthly_factors_get (monthly_factors cfg) m)
                  else Ok 1.0%Q) = Ok mf -> (0 < mf)%Q).
  { intros H. apply bind_Ok in H as (m & _ & H).
    destruct (Qleb 1 m && Qleb m 12); injection H as <-;
      [apply monthly_factors_get_pos; exact Hm | lra]. }
  destruct month; try exact Hnum. intros [= <-]. lra.
Qed.

Lemma default_zones_positive : zones_positive default_config.
Proof. unfold zones_positive. simpl. repeat constructor. Qed.

Lemma default_months_positive : months_positive default_config.
Proof. unfold months_positive. simpl. repeat constructor. Qed.

(** The body with the square footage set: the other fields are read as
    before, and the base usage is that of the new square footage. *)
Lemma body_with_square_footage cfg cy s p u month :
  estimate_monthly_bill_body cfg cy (with_square_footage s p) u month =
  (yb ← as_num (dict_get "year_built" (VNum 2000) p);
   br ← as_num (dict_get "bedrooms" (VNum 3) p);
   cf ← climate_factor cfg (dict_get "zip_code" (VStr "") p);
   mf ← month_factor cfg month;
   r ← as_num (rate_of u);
   mret (base_usage cfg s * age_factor cy yb * bedroom_factor br * cf * mf * r)%Q).
Proof.
  unfold estimate_monthly_bill_body, with_square_footage, dict_get.
  rewrite lookup_insert_eq.
  rewrite !lookup_insert_ne by discriminate.
  reflexivity.
Qed.

(** C9, as stated, fails: 0 and 100 are in the same (small) tier, and
    the bill for 0 square feet exceeds the bill for 100, since the
    interpolation is skipped unless the square footage is positive. *)
Lemma bill_not_increasing_from_zero :
  tier_of 0 = tier_of 100 /\ (0 < 100)%Q /\
  exists b1 b2,
    estimate_monthly_bill default_config 2026
      (with_square_footage 0 property_austin) (Some (utility_rate 0.12)) VNone = Ok b1 /\
    estimate_monthly_bill default_config 2026
      (with_square_footage 100 property_austin) (Some (utility_rate 0.12)) VNone = Ok b2 /\
    ~ (b1 < b2)%Q.
Proof.
  split; [reflexivity |]. split; [reflexivity |].
  eexists. eexists.
  split; [vm_compute; reflexivity |]. split; [vm_compute; reflexivity |].
  vm_compute. discriminate.
Qed.

(** When the estimate fails, here on a ZIP code that is not a string,
    the bill is 0 whatever the square footage. *)
Example bill_constant_when_estimate_fails :
  estimate_monthly_bill default_config 2026
    (with_square_footage 1500 (<["zip_code" := VNum 78701]> property_austin))
    (Some (utility_rate 0.12)) VNone = Ok 0%Q /\
  estimate_monthly_bill default_config 2026
    (with_square_footage 2000 (<["zip_code" := VNum 78701]> property_austin))
    (Some (utility_rate 0.12)) VNone = Ok 0%Q.
Proof. split; vm_compute; reflexivity. Qed.

(** C9, amended: for positive square footages [s1 < s2] of one tier, a
    positive rate and other inputs on which the estimate for [s1] does
    not fail, the estimate for [s2] does not fail either and is not
    smaller.  (In exact arithmetic it is larger; the order that
    survives the rounding of each floating-point operation is the
    non-strict one, which is the one stated.) *)
Theorem bill_monotone_within_tier cy p u month (s1 s2 r b1 : Q) :
  (0 < s1)%Q -> (s1 < s2)%Q -> tier_of s1 = tier_of s2 ->
  as_num (rate_of u) = Ok r -> (0 < r)%Q ->
  estimate_monthly_bill_body default_config cy (with_square_footage s1 p) u month
    = Ok b1 ->
  exists b2,
    estimate_monthly_bill default_config cy (with_square_footage s1 p) u month = Ok b1 /\
    estimate_monthly_bill default_config cy (with_square_footage s2 p) u month = Ok b2 /\
    (b1 <= b2)%Q.
Proof.
  intros Hpos Hlt Htier Hrate Hr H1.
  unfold estimate_monthly_bill. rewrite H1.
  rewrite body_with_square_footage in *.
  apply bind_Ok in H1 as (yb & Hyb & H1). rewrite Hyb.
  apply bind_Ok in H1 as (br & Hbr & H1). rewrite Hbr.
  apply bind_Ok in H1 as (cf & Hcf & H1). rewrite Hcf.
  apply bind_Ok in H1 as (mf & Hmf & H1). rewrite Hmf.
  apply bind_Ok in H1 as (r' & Hr' & H1). rewrite Hr'.
  assert (r' = r) by congruence. subst r'.
  injection H1 as <-. simpl.
  eexists. split; [reflexivity |]. split; [reflexivity |].
  pose proof (base_usage_increasing s1 s2 Hpos Hlt Htier) as Hbase.
  pose proof (age_factor_pos cy yb) as Haf.
  pose proof (bedroom_factor_pos br) as Hbf.
  assert (Hcfp : (0 < cf)%Q).
  { eapply zone_loop_pos; [exact default_zones_positive | | exact Hcf]. lra. }
  pose proof (month_factor_pos _ _ _ default_months_positive Hmf) as Hmfp.
  repeat (apply Qmult_le_compat_r; [| apply Qlt_le_weak; assumption]).
  apply Qlt_le_weak. exact Hbase.
Qed.

Lemma bill_monotone_within_tier_witness :
  (0 < 1500)%Q /\ (1500 < 2000)%Q /\ tier_of 1500 = tier_of 2000 /\
  as_num (rate_of (Some (utility_rate 0.12))) = Ok 0.12%Q /\ (0 < 0.12)%Q /\
  exists b1 b2,
    estimate_monthly_bill default_config 2026 (with_square_footage 1500 property_austin)
      (Some (utility_rate 0.12)) (VNum 7) = Ok b1 /\
    estimate_monthly_bill default_config 2026 (with_square_footage 2000 property_austin)
      (Some (utility_rate 0.12)) (VNum 7) = Ok b2 /\
    (b1 <= b2)%Q.
Proof.
  assert (H1 : (0 < 1500)%Q) by reflexivity.
  assert (H2 : (1500 < 2000)%Q) by reflexivity.
  assert (H3 : tier_of 1500 = tier_of 2000) by reflexivity.
  assert (H4 : as_num (rate_of (Some (utility_rate 0.12))) = Ok 0.12%Q) by reflexivity.
  assert (H5 : (0 < 0.12)%Q) by reflexivity.
  pose (b1 := (base_usage default_config 1500 * age_factor 2026 2015 * bedroom_factor 3
               * 1.15 * 1.50 * 0.12)%Q).
  assert (H6 : estimate_monthly_bill_body default_config 2026
                 (with_square_footage 1500 property_austin)
                 (Some (utility_rate 0.12)) (VNum 7) = Ok b1)
    by (vm_compute; reflexivity).
  repeat (split; [assumption |]).
  destruct (bill_monotone_within_tier 2026 property_austin (Some (utility_rate 0.12))
              (VNum 7) 1500 2000 0.12 b1 H1 H2 H3 H4 H5 H6) as (b2 & E1 & E2 & Hle).
  exists b1, b2. repeat split; assumption.
Defined.

End BillEstimatorProps.

(** ** Roof analysis *)

Module RoofAnalyzerProps.
Import RoofAnalyzer.

Lemma dict_truthy_of_lookup (d : dict) k v :
  d !! k = Some v -> dict_truthy (Some d) = true.
Proof.
  intros H. unfold dict_truthy, dict_empty.
  destruct (map_to_list d) as [| kv l] eqn:E; [| reflexivity].
  apply map_to_list_empty_iff in E. subst d.
  rewrite lookup_empty in H. discriminate.
Qed.

(** C6, as stated, fails: the area score of 1000 sq ft is 90 (the ramp
    from 80 at 800 to 100 at 1200), not about 87.5, and the weighted
    overall score is 93, not about 90.4. *)
Lemma sample_roof_area_score_is_90 :
  exists a,
    assess default_config roof_sample = Ok a /\
    (area_score a == 90)%Q /\ (overall_raw a == 93)%Q /\
    ~ (Qabs (area_score a - 87.5) < 1)%Q /\
    ~ (Qabs (overall_raw a - 90.4) < 1)%Q.
Proof.
  eexists. split; [vm_compute; reflexivity |].
  split; [reflexivity |]. split; [reflexivity |].
  split; vm_compute; discriminate.
Qed.

(** C6, amended: for the sample roof the component scores are
    orientation 100, area 90, shading 87.5, pitch 100 and condition 80,
    the weighted overall score is 93 and the suitability "excellent";
    the returned dictionary holds them rounded (shading 88), unless the
    remainder of [generate_recommendations] raises. *)
Theorem sample_roof_analysis (rest : dict -> Q -> result (list string)) :
  exists a,
    assess default_config roof_sample = Ok a /\
    (orientation_score a == 100)%Q /\ (area_score a == 90)%Q /\
    (shading_score a == 87.5)%Q /\ (pitch_score a == 100)%Q /\
    (condition_score a == 80)%Q /\ (overall_raw a == 93)%Q /\
    suitability a = "excellent" /\
    analyze_roof_suitability rest default_config (Some roof_sample) =
      match rest roof_sample (overall_raw a) with
      | Ok recs =>
          Ok (Analysis 93 "excellent" "Roof is excellent for solar installation"
                {| orientation := 100; area := 90; shading := 88;
                   pitch := 100; condition := 80 |} default_config recs)
      | Raise e => Ok (AnalysisError (exn_str e))
      end.
Proof.
  eexists. split; [vm_compute; reflexivity |].
  repeat (split; [reflexivity |]).
  unfold analyze_roof_suitability, analyze_roof_suitability_body.
  change (negb (dict_truthy (Some roof_sample))) with false. cbv iota.
  match goal with
  | |- context [assess default_config roof_sample] =>
      let v := eval vm_compute in (assess default_config roof_sample) in
      change (assess default_config roof_sample) with v
  end.
  cbn [mbind result_bind overall_raw]. unfold generate_recommendations.
  match goal with
  | |- context [Qltb ?q 35] => change (Qltb q 35) with false
  end. cbv iota.
  match goal with
  | |- context [rest ?d ?q] => destruct (rest d q) as [recs | e]
  end; reflexivity.
Qed.

Lemma area_points_below_minimum (q : Q) :
  (q < 400)%Q -> area_points default_config q = 0%Q.
Proof. intros H. unfold area_points. simpl. qcases; first [lra | reflexivity]. Qed.

Lemma area_points_at_1200 (q : Q) :
  (1200 <= q)%Q -> area_points default_config q = 100%Q.
Proof. intros H. unfold area_points. simpl. qcases; first [lra | reflexivity]. Qed.

(** C7, as stated, fails: with a usable area of 399 and a pitch that is
    not a number the analysis ends in its exception handler, whose
    dictionary has overall score 0 but no suitability. *)
Lemma small_roof_with_bad_pitch_has_no_suitability :
  roof_small_bad_pitch !! "usable_roof_area" = Some (VNum 399) /\
  analyze_roof_suitability no_further_recommendations default_config
    (Some roof_small_bad_pitch)
    = Ok (AnalysisError "unsupported operand type: str") /\
  suitability_of (AnalysisError "unsupported operand type: str")
    <> Some "unsuitable".
Proof.
  split; [reflexivity |]. split; [vm_compute; reflexivity |]. discriminate.
Qed.

(** C7, amended: for every roof record whose usable area is 399 the
    area score is 0 and the analysis returns overall score 0; its
    suitability is "unsuitable" whenever the other four component
    scores can be computed, and otherwise the result is the error
    dictionary.  For every roof record whose usable area is 1200 the
    area score is exactly 100. *)
Theorem small_roof_scores_zero (rest : dict -> Q -> result (list string))
    (roof : dict) (q : Q) :
  roof !! "usable_roof_area" = Some (VNum q) ->
  ((q == 399)%Q ->
   calculate_area_score default_config roof = Ok 0%Q /\
   exists res,
     analyze_roof_suitability rest default_config (Some roof) = Ok res /\
     overall_score res = 0 /\
     (suitability_of res = Some "unsuitable" \/ exists msg, res = AnalysisError msg) /\
     (forall o s p c,
        calculate_orientation_score default_config roof = Ok o ->
        calculate_shading_score default_config roof = Ok s ->
        calculate_pitch_score default_config roof = Ok p ->
        calculate_condition_score default_config roof = Ok c ->
        res = Analysis 0 "unsuitable" unsuitable_message
                {| orientation := py_round o; area := 0; shading := py_round s;
                   pitch := py_round p; condition := py_round c |}
                default_config [not_suited_recommendation])) /\
  ((q == 1200)%Q -> calculate_area_score default_config roof = Ok 100%Q).
Proof.
  intros Hkey.
  assert (Harea : forall v, area_points default_config q = v ->
                            calculate_area_score default_config roof = Ok v).
  { intros v <-. unfold calculate_area_score. rewrite Hkey. reflexivity. }
  split; intros Hq.
  - assert (Ha : calculate_area_score default_config roof = Ok 0%Q).
    { apply Harea, area_points_below_minimum. lra. }
    split; [exact Ha |].
    unfold analyze_roof_suitability.
    rewrite (dict_truthy_of_lookup _ _ _ Hkey). cbn [negb].
    unfold analyze_roof_suitability_body, assess. rewrite Ha.
    destruct (calculate_orientation_score default_config roof) as [o | eo];
      [| eexists; repeat split; [right; eauto | discriminate]].
    destruct (calculate_shading_score default_config roof) as [s | es];
      [| eexists; repeat split; [right; eauto | discriminate]].
    destruct (calculate_pitch_score default_config roof) as [p | ep];
      [| eexists; repeat split; [right; eauto | discriminate]].
    destruct (calculate_condition_score default_config roof) as [c | ec];
      [| eexists; repeat split; [right; eauto | discriminate]].
    eexists. split; [reflexivity |]. split; [reflexivity |].
    split; [left; reflexivity |].
    intros o' s' p' c' [= <-] [= <-] [= <-] [= <-]. reflexivity.
  - apply Harea, area_points_at_1200. lra.
Qed.

Lemma small_roof_scores_zero_witness :
  roof_small !! "usable_roof_area" = Some (VNum 399) /\
  (399 == 399)%Q /\
  calculate_area_score default_config roof_small = Ok 0%Q /\
  exists res,
    analyze_roof_suitability no_further_recommendations default_config
      (Some roof_small)
      = Ok res /\
    overall_score res = 0 /\ suitability_of res = Some "unsuitable".
Proof.
  assert (H1 : roof_small !! "usable_roof_area" = Some (VNum 399)) by reflexivity.
  assert (H2 : (399 == 399)%Q) by reflexivity.
  split; [exact H1 |]. split; [exact H2 |].
  destruct (small_roof_scores_zero no_further_recommendations roof_small 399 H1)
    as [Hsmall _].
  destruct (Hsmall H2) as (Ha & res & Hres & Ho & _ & Hall).
  split; [exact Ha |]. exists res. split; [exact Hres |]. split; [exact Ho |].
  rewrite (Hall 50%Q 50%Q 50%Q 50%Q eq_refl eq_refl eq_refl eq_refl).
  reflexivity.
Defined.

End RoofAnalyzerProps.

(** * Further properties of the engines *)

(** ** Bill estimation *)

Module BillEstimatorFacts.
Import BillEstimator BillEstimatorProps.

Lemma base_usage_at_least_280 (s : Q) : (280 <= base_usage default_config s)%Q.
Proof.
  destruct (Qlt_le_dec 0 s) as [Hpos | Hneg].
  - destruct (tier_of_cases s) as [[_ B] | [[_ B] | [[_ B] | [_ B]]]].
    + rewrite base_usage_small; lra.
    + rewrite base_usage_medium; lra.
    + rewrite base_usage_large; lra.
    + rewrite base_usage_very_large; lra.
  - rewrite base_usage_nonpositive; lra.
Qed.

Lemma body_split cfg cy p u month :
  estimate_monthly_bill_body cfg cy p u month =
  (k ← usage_without_month cfg cy p;
   mf ← month_factor cfg month;
   r ← as_num (rate_of u);
   mret (k * mf * r)%Q).
Proof.
  unfold estimate_monthly_bill_body, usage_without_month.
  destruct (as_num (dict_get "square_footage" (VNum 0) p)); [| reflexivity].
  destruct (as_num (dict_get "year_built" (VNum 2000) p)); [| reflexivity].
  destruct (as_num (dict_get "bedrooms" (VNum 3) p)); [| reflexivity].
  destruct (climate_factor cfg (dict_get "zip_code" (VStr "") p)); reflexivity.
Qed.

Lemma usage_without_month_pos cy p k :
  usage_without_month default_config cy p = Ok k -> (0 < k)%Q.
Proof.
  unfold usage_without_month. intros H.
  apply bind_Ok in H as (sf & _ & H). apply bind_Ok in H as (yb & _ & H).
  apply bind_Ok in H as (br & _ & H). apply bind_Ok in H as (cf & Hcf & H).
  injection H as <-.
  pose proof (base_usage_at_least_280 sf) as Hb.
  pose proof (age_factor_pos cy yb) as Ha.
  pose proof (bedroom_factor_pos br) as Hr.
  assert (Hc : (0 < cf)%Q).
  { eapply zone_loop_pos; [exact default_zones_positive | | exact Hcf]. lra. }
  repeat apply Qmult_lt_0_compat; try assumption. lra.
Qed.

(** X1: with a rate that is not negative the estimate is never
    negative, whatever the other inputs. *)
Theorem estimate_monthly_bill_nonnegative cy p u month :
  (forall r, as_num (rate_of u) = Ok r -> (0 <= r)%Q) ->
  exists b, estimate_monthly_bill default_config cy p u month = Ok b /\ (0 <= b)%Q.
Proof.
  intros Hrate.
  destruct (estimate_monthly_bill_returns default_config cy p u month)
    as (b & Hb & Hcase).
  exists b. split; [exact Hb |].
  destruct Hcase as [Hbody | (e & _ & ->)]; [| lra].
  rewrite body_split in Hbody.
  apply bind_Ok in Hbody as (k & Hk & Hbody).
  apply bind_Ok in Hbody as (mf & Hmf & Hbody).
  apply bind_Ok in Hbody as (r & Hr & Hbody). injection Hbody as <-.
  apply usage_without_month_pos in Hk.
  pose proof (month_factor_pos _ _ _ default_months_positive Hmf) as Hm.
  specialize (Hrate r Hr).
  apply Qmult_le_0_compat; [| exact Hrate].
  apply Qlt_le_weak, Qmult_lt_0_compat; assumption.
Qed.

Lemma estimate_monthly_bill_nonnegative_witness :
  (forall r, as_num (rate_of (Some (utility_rate 0.12))) = Ok r -> (0 <= r)%Q) /\
  exists b,
    estimate_monthly_bill default_config 2026 property_austin
      (Some (utility_rate 0.12)) (VNum 7) = Ok b /\ (0 <= b)%Q.
Proof.
  assert (H : forall r, as_num (rate_of (Some (utility_rate 0.12))) = Ok r ->
                        (0 <= r)%Q).
  { intros r Hr. vm_compute in Hr. injection Hr as <-. discriminate. }
  split; [exact H |].
  exact (estimate_monthly_bill_nonnegative 2026 property_austin
           (Some (utility_rate 0.12)) (VNum 7) H).
Defined.

(** *** Climate zones *)

Lemma prefix_loop_string zip prefixes :
  prefix_loop (VStr zip) prefixes
  = Ok (existsb (fun p => String.prefix p zip) prefixes).
Proof.
  induction prefixes as [| p rest IH]; simpl; [reflexivity |].
  destruct (String.prefix p zip); [reflexivity | exact IH].
Qed.

Lemma prefix_loop_not_string v p rest :
  (forall zip, v <> VStr zip) ->
  prefix_loop v (p :: rest)
  = Raise (AttributeError "object has no attribute 'startswith'").
Proof. intros H. destruct v; simpl; try reflexivity. destruct (H s eq_refl). Qed.

Lemma zone_loop_string zip zones c0 :
  zone_loop (VStr zip) zones c0
  = Ok (fold_left (fun c z => if zone_matches zip z then base_factor z else c)
          zones c0).
Proof.
  revert c0. induction zones as [| z rest IH]; intros c0; simpl; [reflexivity |].
  rewrite prefix_loop_string. simpl. apply IH.
Qed.

(** X2: for a ZIP code that is a string the default climate factor is
    1.0, 1.05 or 1.15, and it is 1.0 when no listed prefix begins the
    ZIP code; for a ZIP code that is not a string the lookup raises. *)
Theorem climate_factor_default (zip_code : pyval) :
  match zip_code with
  | VStr zip =>
      exists cf,
        climate_factor default_config zip_code = Ok cf /\
        (cf = 1.0%Q \/ cf = 1.05%Q \/ cf = 1.15%Q) /\
        (forallb (fun z => negb (zone_matches zip z)) (climate_zones default_config)
           = true -> cf = 1.0%Q)
  | _ =>
      climate_factor default_config zip_code
      = Raise (AttributeError "object has no attribute 'startswith'")
  end.
Proof.
  destruct zip_code as [| b | q | zip]; try reflexivity.
  unfold climate_factor. rewrite zone_loop_string.
  unfold default_config. cbn [climate_zones fold_left forallb base_factor].
  repeat match goal with
  | |- context [zone_matches zip ?z] => destruct (zone_matches zip z)
  end; eexists; (split; [reflexivity |]); split; auto; discriminate.
Qed.

Lemma fold_zones_unmatched zip zones (c : Q) :
  forallb (fun z => negb (zone_matches zip z)) zones = true ->
  fold_left (fun c z => if zone_matches zip z then base_factor z else c) zones c = c.
Proof.
  revert c. induction zones as [| z rest IH]; intros c H; simpl; [reflexivity |].
  simpl in H. apply andb_prop in H as [Hz Hrest].
  apply Bool.negb_true_iff in Hz. rewrite Hz. apply IH. exact Hrest.
Qed.

(** X3: when several zones of a configuration match a ZIP code, the
    one listed last among them decides the factor, whatever zones come
    before it and whichever zones that do not match come after it: the
    [break] ends the scan of one zone's prefixes, not the scan of the
    zones. *)
Theorem last_matching_zone_wins cfg before z after zip :
  climate_zones cfg = (before ++ z :: after)%list ->
  zone_matches zip z = true ->
  forallb (fun z' => negb (zone_matches zip z')) after = true ->
  climate_factor cfg (VStr zip) = Ok (base_factor z).
Proof.
  intros Hz Hm Hafter. unfold climate_factor. rewrite Hz, zone_loop_string.
  rewrite fold_left_app. simpl. rewrite Hm.
  rewrite (fold_zones_unmatched _ _ _ Hafter). reflexivity.
Qed.

Lemma last_matching_zone_wins_witness :
  climate_zones overlapping_config
    = ([zone_hill_country] ++ zone_austin :: [zone_panhandle])%list /\
  zone_matches "78701" zone_austin = true /\
  forallb (fun z' => negb (zone_matches "78701" z')) [zone_panhandle] = true /\
  zone_matches "78701" zone_hill_country = true /\
  climate_factor overlapping_config (VStr "78701") = Ok 1.15%Q.
Proof.
  assert (H1 : climate_zones overlapping_config
               = ([zone_hill_country] ++ zone_austin :: [zone_panhandle])%list)
    by reflexivity.
  assert (H2 : zone_matches "78701" zone_austin = true) by reflexivity.
  assert (H3 : forallb (fun z' => negb (zone_matches "78701" z')) [zone_panhandle]
               = true) by reflexivity.
  split; [exact H1 |]. split; [exact H2 |]. split; [exact H3 |].
  split; [reflexivity |].
  exact (last_matching_zone_wins overlapping_config [zone_hill_country] zone_austin
           [zone_panhandle] "78701" H1 H2 H3).
Defined.

(** *** The factors *)

(** X4: a month given as a number outside 1..12 is read as no month
    (factor 1.0), and every month factor of the default table lies
    between 0.75 and 1.5. *)
Theorem month_factor_default (m : Q) :
  exists f,
    month_factor default_config (VNum m) = Ok f /\
    (0.75 <= f /\ f <= 1.5)%Q /\
    ((m < 1 \/ 12 < m)%Q -> f = 1.0%Q).
Proof.
  unfold month_factor. simpl as_num. cbn [mbind result_bind].
  unfold Qleb.
  destruct (Qle_bool 1 m) eqn:E1; [destruct (Qle_bool m 12) eqn:E2 |]; simpl.
  - eexists. split; [reflexivity |]. split.
    + repeat match goal with
      | |- context [Qeq_bool ?k m] => destruct (Qeq_bool k m)
      end; lra.
    + apply Qle_bool_iff in E1, E2. lra.
  - eexists. split; [reflexivity |]. split; [lra | reflexivity].
  - eexists. split; [reflexivity |]. split; [lra | reflexivity].
Qed.

(** X5: of two homes with a positive year of construction, the newer
    one never has the larger age factor. *)
Theorem age_factor_antitone cy (yb1 yb2 : Q) :
  (0 < yb1)%Q -> (yb1 <= yb2)%Q ->
  (age_factor cy yb2 <= age_factor cy yb1)%Q.
Proof. intros H1 H2. unfold age_factor. qcases; lra. Qed.

Lemma age_factor_antitone_witness :
  (0 < 1980)%Q /\ (1980 <= 2015)%Q /\
  (age_factor 2026 2015 <= age_factor 2026 1980)%Q.
Proof.
  assert (H1 : (0 < 1980)%Q) by reflexivity.
  assert (H2 : (1980 <= 2015)%Q) by discriminate.
  split; [exact H1 |]. split; [exact H2 |].
  exact (age_factor_antitone 2026 1980 2015 H1 H2).
Defined.

(** X6: on whole numbers of bedrooms the bedroom factor never
    decreases with the number of bedrooms. *)
Theorem bedroom_factor_monotone (b1 b2 : Z) :
  b1 <= b2 ->
  (bedroom_factor (inject_Z b1) <= bedroom_factor (inject_Z b2))%Q.
Proof.
  intros H. unfold bedroom_factor. qcases; try lra;
    unfold Qle, Qlt, Qeq, inject_Z in *; simpl in *; lia.
Qed.

Lemma bedroom_factor_monotone_witness :
  2 <= 4 /\ (bedroom_factor (inject_Z 2) <= bedroom_factor (inject_Z 4))%Q.
Proof.
  assert (H : 2 <= 4) by lia.
  split; [exact H |]. exact (bedroom_factor_monotone 2 4 H).
Defined.

(** *** The annual profile *)

Lemma py_round2_proper (x y : Q) : (x == y)%Q -> py_round2 x = py_round2 y.
Proof.
  intros E. unfold py_round2.
  assert (H : py_round (x * 100) = py_round (y * 100)).
  { apply py_round_proper. rewrite E. reflexivity. }
  rewrite H. reflexivity.
Qed.

(** The estimate when the month factor is known: the product, or 0 when
    the usage or the rate cannot be computed. *)
Lemma estimate_monthly_bill_cases cfg cy p u month mf :
  month_factor cfg month = Ok mf ->
  estimate_monthly_bill cfg cy p u month
  = Ok match usage_without_month cfg cy p, as_num (rate_of u) with
       | Ok k, Ok r => (k * mf * r)%Q
       | _, _ => 0%Q
       end.
Proof.
  intros Hmf. unfold estimate_monthly_bill. rewrite body_split.
  destruct (usage_without_month cfg cy p) as [k | e]; [| reflexivity].
  cbn [mbind result_bind]. rewrite Hmf. cbn [mbind result_bind].
  destruct (as_num (rate_of u)); reflexivity.
Qed.

Lemma month_factor_in_year m name :
  In (m, name) months_of_year ->
  month_factor default_config (VNum (inject_Z m))
  = Ok (monthly_factors_get (monthly_factors default_config) (inject_Z m)).
Proof.
  unfold months_of_year. simpl In. intros H.
  repeat (destruct H as [[= <- <-] | H]; [reflexivity |]). destruct H.
Qed.

Lemma profile_loop_spec cfg cy p u (bill : Z -> Q) months acc total :
  (forall m name, In (m, name) months ->
     estimate_monthly_bill cfg cy p u (VNum (inject_Z m)) = Ok (bill m)) ->
  profile_loop cfg cy p u months acc total
  = Ok ((acc ++ map (fun mn => (snd mn, py_round2 (bill (fst mn)))) months)%list,
        fold_left (fun t mn => (t + bill (fst mn))%Q) months total).
Proof.
  revert acc total. induction months as [| [m name] rest IH]; intros acc total H.
  - simpl. rewrite app_nil_r. reflexivity.
  - simpl. rewrite (H m name) by (left; reflexivity). cbn [mbind result_bind].
    rewrite IH by (intros m' n' Hin; apply (H m' n'); right; exact Hin).
    rewrite <- app_assoc. reflexivity.
Qed.

Lemma py_round_error (q : Q) :
  (q - (1 # 2) <= inject_Z (py_round q) /\ inject_Z (py_round q) <= q + (1 # 2))%Q.
Proof.
  unfold py_round.
  pose proof (Qfloor_le q) as Hlo. pose proof (Qlt_floor q) as Hhi.
  rewrite inject_Z_plus in Hhi. change (inject_Z 1) with 1%Q in Hhi.
  destruct (Qcompare_spec (q - inject_Z (Qfloor q)) (1 # 2)) as [C | C | C];
    [destruct (Z.even (Qfloor q)) | |];
    rewrite ?inject_Z_plus; change (inject_Z 1) with 1%Q;
    set (fz := inject_Z (Qfloor q)) in *; clearbody fz; lra.
Qed.

(** Rounding to cents moves a value by half a cent at most. *)
Lemma py_round2_error (q : Q) :
  (q - (1 # 200) <= py_round2 q /\ py_round2 q <= q + (1 # 200))%Q.
Proof.
  unfold py_round2. pose proof (py_round_error (q * 100)) as H.
  set (z := inject_Z (py_round (q * 100))) in *. clearbody z. qlra.
Qed.

(** X7: the annual profile never raises and has twelve entries; its
    annual total agrees to the cent with 12.2 times the estimate made
    without a month (the twelve default month factors add up to 12.2,
    not to 12), and its monthly average agrees to the cent with that
    product divided by 12. *)
Theorem annual_profile_total cy p u :
  exists b prof,
    estimate_monthly_bill default_config cy p u VNone = Ok b /\
    estimate_annual_bill_profile default_config cy p u = Ok prof /\
    (Qabs (annual_total prof - 12.2 * b) < 0.01)%Q /\
    (Qabs (monthly_average prof - 12.2 * b / 12) < 0.01)%Q /\
    length (monthly prof) = 12%nat.
Proof.
  set (f := fun m : Z => monthly_factors_get (monthly_factors default_config)
                           (inject_Z m)).
  set (bill := fun m : Z =>
         match usage_without_month default_config cy p, as_num (rate_of u) with
         | Ok k, Ok r => (k * f m * r)%Q
         | _, _ => 0%Q
         end).
  assert (Hbill : forall m name, In (m, name) months_of_year ->
            estimate_monthly_bill default_config cy p u (VNum (inject_Z m))
            = Ok (bill m)).
  { intros m name Hin. apply estimate_monthly_bill_cases.
    exact (month_factor_in_year m name Hin). }
  eexists. eexists.
  split; [apply (estimate_monthly_bill_cases _ _ _ _ VNone 1.0%Q); reflexivity |].
  unfold estimate_annual_bill_profile.
  rewrite (profile_loop_spec _ _ _ _ bill _ _ _ Hbill).
  cbn [mbind result_bind]. split; [reflexivity |].
  cbn [annual_total monthly_average monthly].
  assert (Hsum : (fold_left (fun t mn => t + bill (fst mn)) months_of_year 0
                  == 12.2 * match usage_without_month default_config cy p,
                                  as_num (rate_of u) with
                            | Ok k, Ok r => k * 1.0 * r
                            | _, _ => 0
                            end)%Q).
  { unfold months_of_year. cbn [fold_left fst]. subst bill. cbn beta.
    destruct (usage_without_month default_config cy p) as [k | e];
      [destruct (as_num (rate_of u)) as [r | e] |]; try ring.
    subst f. cbn beta.
    repeat match goal with
    | |- context [monthly_factors_get ?t ?m] =>
        let v := eval vm_compute in (monthly_factors_get t m) in
        change (monthly_factors_get t m) with v
    end.
    ring. }
  set (total := fold_left (fun t mn => (t + bill (fst mn))%Q) months_of_year 0%Q) in *.
  set (b := match usage_without_month default_config cy p, as_num (rate_of u) with
            | Ok k, Ok r => (k * 1.0 * r)%Q
            | _, _ => 0%Q
            end) in *.
  clearbody total b.
  pose proof (py_round2_error total) as E1.
  pose proof (py_round2_error (total / 12)) as E2.
  split; [apply Qabs_Qlt_condition; lra |].
  split; [apply Qabs_Qlt_condition; qlra |].
  reflexivity.
Qed.

(** *** The estimate by ZIP code *)

Lemma region_loop_string zip zones r0 :
  region_loop (VStr zip) zones r0
  = Ok (fold_left (fun r z => if zone_matches zip z then zone_name z else r)
          zones r0).
Proof.
  revert r0. induction zones as [| z rest IH]; intros r0; simpl; [reflexivity |].
  rewrite prefix_loop_string. simpl. apply IH.
Qed.

Lemma estimate_monthly_bill_rate_only cfg cy p u u' month :
  rate_of u = rate_of u' ->
  estimate_monthly_bill cfg cy p u month = estimate_monthly_bill cfg cy p u' month.
Proof.
  intros H. unfold estimate_monthly_bill, estimate_monthly_bill_body.
  rewrite H. reflexivity.
Qed.

(** X8: [estimate_bill_by_zip_code] raises [AttributeError] when the
    ZIP code is not a string, the region scan being outside any [try];
    for a ZIP code that is a string it returns the estimate of
    [estimate_monthly_bill] at one of the regional rates 0.115, 0.125
    and 0.135, and a ZIP code no zone lists is charged the central rate
    0.125 with the climate factor 1.0. *)
Theorem estimate_bill_by_zip_code_default cy zip_code sf yb br :
  match zip_code with
  | VStr zip =>
      exists rate,
        estimate_bill_by_zip_code default_config cy zip_code sf yb br
        = estimate_monthly_bill default_config cy
            (property_of_zip zip_code sf yb br) (Some (utility_rate rate)) VNone /\
        (rate = 0.115%Q \/ rate = 0.125%Q \/ rate = 0.135%Q) /\
        (forallb (fun z => negb (zone_matches zip z)) (climate_zones default_config)
           = true ->
         rate = 0.125%Q /\ climate_factor default_config zip_code = Ok 1.0%Q)
  | _ =>
      estimate_bill_by_zip_code default_config cy zip_code sf yb br
      = Raise (AttributeError "object has no attribute 'startswith'")
  end.
Proof.
  destruct zip_code as [| b | q | zip]; try reflexivity.
  unfold estimate_bill_by_zip_code, climate_factor.
  rewrite region_loop_string, zone_loop_string.
  remember (climate_zones default_config) as zs eqn:Hzs.
  unfold default_config in Hzs. cbn [climate_zones] in Hzs. subst zs.
  cbn [fold_left forallb base_factor zone_name].
  repeat match goal with
  | |- context [zone_matches zip ?z] => destruct (zone_matches zip z)
  end; cbn [mbind result_bind];
    eexists; (split; [apply estimate_monthly_bill_rate_only; reflexivity |]);
    (split; [auto |]); first [discriminate | intros _; split; reflexivity].
Qed.

End BillEstimatorFacts.

(** ** Roof analysis *)

Module RoofAnalyzerFacts.
Import RoofAnalyzer.

Lemma Qabs_cases (x : Q) :
  (0 <= x /\ Qabs x == x)%Q \/ (x <= 0 /\ Qabs x == - x)%Q.
Proof.
  destruct (Qlt_le_dec x 0) as [H | H].
  - right. split; [lra |]. apply Qabs_neg. lra.
  - left. split; [exact H |]. apply Qabs_pos. exact H.
Qed.

(** Replace [Qabs x] by a variable of which only the sign cases are known. *)
Ltac qabs x :=
  let d := fresh "d" in
  let Hd := fresh "Hd" in
  pose proof (Qabs_cases x) as Hd;
  set (d := Qabs x) in *; clearbody d.

Lemma py_round_ge (a : Z) (q : Q) : (inject_Z a <= q)%Q -> a <= py_round q.
Proof.
  intros H. apply (py_round_bounds a (Qceiling q)); [exact H | apply Qle_ceiling].
Qed.

Lemma py_round_le (b : Z) (q : Q) : (q <= inject_Z b)%Q -> py_round q <= b.
Proof.
  intros H. apply (py_round_bounds (Qfloor q) b); [apply Qfloor_le | exact H].
Qed.

(** X9: an azimuth within 0..360 gives an orientation score within
    0..100: 100 exactly at 180, and 0 at 0 and at 360; the cardinal
    direction of the record is not looked at. *)
Theorem orientation_score_of_azimuth (roof : dict) (az : Q) :
  roof !! "azimuth" = Some (VNum az) ->
  (0 <= az)%Q -> (az <= 360)%Q ->
  exists s,
    calculate_orientation_score default_config roof = Ok s /\
    (0 <= s /\ s <= 100)%Q /\
    (s == 100 <-> az == 180)%Q /\
    (az == 0 \/ az == 360 -> s == 0)%Q.
Proof.
  intros Hkey Hlo Hhi. unfold calculate_orientation_score. rewrite Hkey.
  simpl as_num. cbn [mbind result_bind optimal_azimuth default_config].
  eexists. split; [reflexivity |].
  qabs (az - 180)%Q. qcases; qdiv; intuition lra.
Qed.

Lemma orientation_score_of_azimuth_witness :
  ({[ "azimuth" := VNum 90 ]} : dict) !! "azimuth" = Some (VNum 90) /\
  (0 <= 90)%Q /\ (90 <= 360)%Q /\
  exists s,
    calculate_orientation_score default_config {[ "azimuth" := VNum 90 ]} = Ok s /\
    (0 <= s /\ s <= 100)%Q.
Proof.
  assert (H1 : ({[ "azimuth" := VNum 90 ]} : dict) !! "azimuth" = Some (VNum 90))
    by reflexivity.
  assert (H2 : (0 <= 90)%Q) by discriminate.
  assert (H3 : (90 <= 360)%Q) by discriminate.
  split; [exact H1 |]. split; [exact H2 |]. split; [exact H3 |].
  destruct (orientation_score_of_azimuth _ 90 H1 H2 H3) as (s & Hs & Hr & _).
  exists s. split; assumption.
Defined.

(** X10: the wrap-around of the azimuth is applied once only: an
    azimuth above 540 gives an orientation score above 100. *)
Theorem orientation_score_above_100 (roof : dict) (az : Q) :
  roof !! "azimuth" = Some (VNum az) ->
  (540 < az)%Q ->
  exists s, calculate_orientation_score default_config roof = Ok s /\ (100 < s)%Q.
Proof.
  intros Hkey Hbig. unfold calculate_orientation_score. rewrite Hkey.
  simpl as_num. cbn [mbind result_bind optimal_azimuth default_config].
  eexists. split; [reflexivity |].
  qabs (az - 180)%Q. qcases; qdiv; intuition lra.
Qed.

Lemma orientation_score_above_100_witness :
  ({[ "azimuth" := VNum 720 ]} : dict) !! "azimuth" = Some (VNum 720) /\
  (540 < 720)%Q /\
  exists s,
    calculate_orientation_score default_config {[ "azimuth" := VNum 720 ]} = Ok s /\
    (100 < s)%Q.
Proof.
  assert (H1 : ({[ "azimuth" := VNum 720 ]} : dict) !! "azimuth" = Some (VNum 720))
    by reflexivity.
  assert (H2 : (540 < 720)%Q) by reflexivity.
  split; [exact H1 |]. split; [exact H2 |].
  exact (orientation_score_above_100 _ 720 H1 H2).
Defined.

(** X11: the area score never decreases with the usable area; it is 0
    below 400 sq ft and between 50 and 100 from there on. *)
Theorem area_points_monotone (a1 a2 : Q) :
  (a1 <= a2)%Q ->
  (area_points default_config a1 <= area_points default_config a2)%Q /\
  (a1 < 400 -> area_points default_config a1 == 0)%Q /\
  (400 <= a1 -> 50 <= area_points default_config a1 /\
                area_points default_config a1 <= 100)%Q.
Proof.
  intros H. unfold area_points. cbn [min_usable_area default_config].
  qcases; qdiv; intuition lra.
Qed.

Lemma area_points_monotone_witness :
  (600 <= 1000)%Q /\
  (area_points default_config 600 <= area_points default_config 1000)%Q.
Proof.
  assert (H : (600 <= 1000)%Q) by discriminate.
  split; [exact H |]. exact (proj1 (area_points_monotone 600 1000 H)).
Defined.



(** X13: for every numeric pitch the pitch score is within 0..100; it is
    100 exactly at the optimal 25 degrees, and 0 when the pitch is 30
    degrees or more away from it. *)
Theorem pitch_score_range (roof : dict) (p : Q) :
  roof !! "pitch" = Some (VNum p) ->
  exists s,
    calculate_pitch_score default_config roof = Ok s /\
    (0 <= s /\ s <= 100)%Q /\
    (s == 100 <-> p == 25)%Q /\
    (p <= -5 \/ 55 <= p -> s == 0)%Q.
Proof.
  intros Hkey. unfold calculate_pitch_score. rewrite Hkey.
  simpl as_num. cbn [mbind result_bind optimal_pitch default_config].
  qabs (p - 25)%Q. unfold Qgeb.
  destruct (Qle_bool 30 d) eqn:E;
    [apply Qle_bool_iff in E | apply Qle_bool_false in E];
    eexists; (split; [reflexivity |]); qdiv; intuition lra.
Qed.

Lemma pitch_score_range_witness :
  ({[ "pitch" := VNum 10 ]} : dict) !! "pitch" = Some (VNum 10) /\
  exists s,
    calculate_pitch_score default_config {[ "pitch" := VNum 10 ]} = Ok s /\
    (0 <= s /\ s <= 100)%Q.
Proof.
  assert (H : ({[ "pitch" := VNum 10 ]} : dict) !! "pitch" = Some (VNum 10))
    by reflexivity.
  split; [exact H |].
  destruct (pitch_score_range _ 10 H) as (s & Hs & Hr & _).
  exists s. split; assumption.
Defined.

(** *** The analysis as a whole *)

Lemma assess_Ok cfg roof a :
  assess cfg roof = Ok a ->
  exists o ar s p c,
    calculate_orientation_score cfg roof = Ok o /\
    calculate_area_score cfg roof = Ok ar /\
    calculate_shading_score cfg roof = Ok s /\
    calculate_pitch_score cfg roof = Ok p /\
    calculate_condition_score cfg roof = Ok c /\
    orientation_score a = o /\ area_score a = ar /\ shading_score a = s /\
    pitch_score a = p /\ condition_score a = c /\
    (overall_raw a, suitability a, message a) = verdict cfg o ar s p c.
Proof.
  unfold assess. intros H.
  apply bind_Ok in H as (o & Ho & H). apply bind_Ok in H as (ar & Ha & H).
  apply bind_Ok in H as (s & Hs & H). apply bind_Ok in H as (p & Hp & H).
  apply bind_Ok in H as (c & Hc & H).
  exists o, ar, s, p, c. repeat (split; [assumption |]).
  unfold verdict. cbv beta zeta in H |- *.
  match goal with
  | |- context [(_, _, _) = ?X] => destruct X as [[overall suit] msg]
  end.
  injection H as <-. repeat split; reflexivity.
Qed.

(** What a returning analysis of a non-empty record is made of. *)
Lemma analyze_Ok rest cfg roof res :
  dict_truthy (Some roof) = true ->
  analyze_roof_suitability rest cfg (Some roof) = Ok res ->
  (exists msg, res = AnalysisError msg) \/
  (exists a recs,
     assess cfg roof = Ok a /\
     res = Analysis (py_round (overall_raw a)) (suitability a) (message a)
             {| orientation := py_round (orientation_score a);
                area := py_round (area_score a);
                shading := py_round (shading_score a);
                pitch := py_round (pitch_score a);
                condition := py_round (condition_score a) |} cfg recs).
Proof.
  intros Ht. unfold analyze_roof_suitability. rewrite Ht. cbn [negb].
  unfold analyze_roof_suitability_body.
  destruct (assess cfg roof) as [a | e]; cbn [mbind result_bind];
    [| intros [= <-]; left; eauto].
  destruct (generate_recommendations rest roof (overall_raw a)) as [recs | e];
    simpl; intros [= <-]; [right; eauto | left; eauto].
Qed.

Lemma verdict_band cfg o a s p c overall suit msg :
  verdict cfg o a s p c = (overall, suit, msg) ->
  band_matches suit (py_round overall).
Proof.
  unfold verdict, band_matches.
  destruct (Qeq_bool a 0 || Qeq_bool s 0).
  - intros [= <- <- <-]. right. right. right. right. split; [reflexivity |].
    change (py_round 0) with 0. lia.
  - set (w := (o * w_orientation cfg + a * w_area cfg + s * w_shading cfg +
               p * w_pitch cfg + c * w_condition cfg)%Q).
    clearbody w. qcases; intros [= <- <- <-].
    + left. split; [reflexivity |]. apply py_round_ge. qlra.
    + right. left. split; [reflexivity |].
      split; [apply py_round_ge | apply py_round_le]; qlra.
    + right. right. left. split; [reflexivity |].
      split; [apply py_round_ge | apply py_round_le]; qlra.
    + right. right. right. left. split; [reflexivity |].
      split; [apply py_round_ge | apply py_round_le]; qlra.
    + right. right. right. right. split; [reflexivity |].
      apply py_round_le; qlra.
Qed.

(** X14: whatever the configured weights, the suitability of a
    returned analysis and its rounded overall score agree up to the
    rounding: "excellent" comes with 80 or more, "good" with 65..80,
    "average" with 50..65, "poor" with 35..50 and "unsuitable" with 35
    or less.  The upper ends are reached: the band is chosen before the
    score is rounded. *)
Theorem suitability_matches_overall rest cfg roof overall suit msg comps w recs :
  analyze_roof_suitability rest cfg (Some roof)
    = Ok (Analysis overall suit msg comps w recs) ->
  band_matches suit overall.
Proof.
  intros H.
  assert (Ht : dict_truthy (Some roof) = true).
  { unfold analyze_roof_suitability in H.
    destruct (dict_truthy (Some roof)); [reflexivity | discriminate]. }
  apply (analyze_Ok _ _ _ _ Ht) in H as [(m & H) | (a & recs' & Ha & H)];
    [discriminate |].
  injection H as -> -> _ _ _ _.
  apply assess_Ok in Ha as (o & ar & s & p & c & _ & _ & _ & _ & _ & _ & _ & _ & _ & _ & Hv).
  symmetry in Hv. exact (verdict_band _ _ _ _ _ _ _ _ _ Hv).
Qed.

Lemma suitability_matches_overall_witness :
  analyze_roof_suitability no_further_recommendations default_config
    (Some roof_just_below_excellent)
  = Ok (Analysis 80 "good" "Roof is well-suited for solar installation"
          {| orientation := 100; area := 100; shading := 48; pitch := 50;
             condition := 50 |} default_config []) /\
  band_matches "good" 80.
Proof.
  assert (H : analyze_roof_suitability no_further_recommendations default_config
                (Some roof_just_below_excellent)
              = Ok (Analysis 80 "good" "Roof is well-suited for solar installation"
                      {| orientation := 100; area := 100; shading := 48; pitch := 50;
                         condition := 50 |} default_config []))
    by (vm_compute; reflexivity).
  split; [exact H |].
  exact (suitability_matches_overall _ _ _ _ _ _ _ _ _ H).
Defined.

Lemma orientation_score_bounds roof o :
  roof_fields_in_range roof = true ->
  calculate_orientation_score default_config roof = Ok o ->
  (0 <= o /\ o <= 100)%Q.
Proof.
  unfold roof_fields_in_range, calculate_orientation_score. intros Hin.
  apply andb_prop in Hin as [Haz _].
  destruct (roof !! "azimuth") as [v |].
  - assert (Hnum : forall az, as_num v = Ok az -> (0 <= az /\ az <= 360)%Q).
    { destruct v as [| [] | q | x]; simpl; intros az; try discriminate;
        intros [= <-]; try lra.
      apply andb_prop in Haz as [H1 H2]. apply Qle_bool_iff in H1, H2. lra. }
    intros H. apply bind_Ok in H as (az & Haznum & H).
    specialize (Hnum az Haznum). cbn [optimal_azimuth default_config] in H.
    revert H. qabs (az - 180)%Q. qcases; intros [= <-]; qdiv; intuition lra.
  - destruct (roof !! "primary_orientation") as [v |]; intros [= <-]; [| lra].
    unfold orientation_scores_get.
    repeat match goal with |- context [eq_str v ?k] => destruct (eq_str v k) end; lra.
Qed.

Lemma area_score_bounds roof a :
  calculate_area_score default_config roof = Ok a -> (0 <= a /\ a <= 100)%Q.
Proof.
  unfold calculate_area_score, area_points. cbn [min_usable_area default_config].
  destruct (roof !! "usable_roof_area") as [v |];
    [| destruct (roof !! "total_roof_area") as [t |]; [| intros [= <-]; lra]];
    intros H; apply bind_Ok in H as (q & _ & H); revert H;
    qcases; intros [= <-]; qlra.
Qed.

Lemma shading_score_bounds roof s :
  roof_fields_in_range roof = true ->
  calculate_shading_score default_config roof = Ok s -> (0 <= s /\ s <= 100)%Q.
Proof.
  unfold roof_fields_in_range, calculate_shading_score, py_div. intros Hin.
  apply andb_prop in Hin as [_ Hsh].
  cbn [max_shading default_config]. change (Qeq_bool 40 0) with false.
  destruct (roof !! "shading_percentage") as [v |]; [| intros [= <-]; lra].
  assert (Hnum : forall q, as_num v = Ok q -> (0 <= q)%Q).
  { destruct v as [| [] | q | x]; simpl; intros q'; try discriminate;
      intros [= <-]; try lra.
    apply Qle_bool_iff in Hsh. exact Hsh. }
  intros H. apply bind_Ok in H as (q & Hq & H). specialize (Hnum q Hq).
  revert H. qcases; intros [= <-]; qlra.
Qed.

Lemma pitch_score_bounds roof p :
  calculate_pitch_score default_config roof = Ok p -> (0 <= p /\ p <= 100)%Q.
Proof.
  unfold calculate_pitch_score. cbn [optimal_pitch default_config].
  destruct (roof !! "pitch") as [v |]; [| intros [= <-]; lra].
  intros H. apply bind_Ok in H as (q & _ & H). revert H.
  qabs (q - 25)%Q. qcases; intros [= <-]; qdiv; intuition lra.
Qed.

Lemma condition_score_bounds roof c :
  calculate_condition_score default_config roof = Ok c -> (0 <= c /\ c <= 100)%Q.
Proof.
  unfold calculate_condition_score.
  destruct (roof !! "roof_condition") as [v |].
  - intros H. apply bind_Ok in H as (x & _ & H). injection H as <-.
    unfold condition_scores_get.
    repeat match goal with |- context [String.eqb x ?k] => destruct (String.eqb x k) end;
      lra.
  - destruct (roof !! "roof_age") as [v |]; [| intros [= <-]; lra].
    intros H. apply bind_Ok in H as (q & _ & H). revert H.
    qcases; intros [= <-]; lra.
Qed.

(** X15: for a roof record whose azimuth lies within 0..360 and whose
    shading is not negative, every result of the analysis has an overall
    score within 0..100, and the component scores it reports are within
    0..100 as well. *)
Theorem roof_analysis_in_range rest roof res :
  roof_fields_in_range roof = true ->
  analyze_roof_suitability rest default_config (Some roof) = Ok res ->
  in_range (overall_score res) /\
  (forall comps, components_of res = Some comps -> components_in_range comps).
Proof.
  intros Hin H. unfold in_range.
  destruct (dict_truthy (Some roof)) eqn:Ht.
  2:{ unfold analyze_roof_suitability in H. rewrite Ht in H.
      injection H as <-. simpl. split; [lia | discriminate]. }
  apply (analyze_Ok _ _ _ _ Ht) in H as [(m & ->) | (a & recs & Ha & ->)].
  { simpl. split; [lia | discriminate]. }
  apply assess_Ok in Ha
    as (o & ar & s & p & c & Ho & Har & Hs & Hp & Hc & Eo & Ear & Es & Ep & Ec & Hv).
  apply (orientation_score_bounds _ _ Hin) in Ho. apply area_score_bounds in Har.
  apply (shading_score_bounds _ _ Hin) in Hs. apply pitch_score_bounds in Hp.
  apply condition_score_bounds in Hc.
  cbn [overall_score components_of]. split.
  - assert (Hraw : (0 <= overall_raw a /\ overall_raw a <= 100)%Q).
    { revert Hv. unfold verdict.
      cbn [w_orientation w_area w_shading w_pitch w_condition default_config].
      destruct (Qeq_bool ar 0 || Qeq_bool s 0); [intros [= -> _ _]; lra |].
      qcases; intros [= -> _ _]; lra. }
    apply (py_round_bounds 0 100); qlra.
  - intros comps [= <-]. unfold components_in_range, in_range.
    cbn [orientation area shading pitch condition].
    rewrite Eo, Ear, Es, Ep, Ec.
    repeat split; apply (py_round_bounds 0 100); qlra.
Qed.

Lemma roof_analysis_in_range_witness :
  roof_fields_in_range roof_sample = true /\
  analyze_roof_suitability no_further_recommendations default_config (Some roof_sample)
  = Ok (Analysis 93 "excellent" "Roof is excellent for solar installation"
          {| orientation := 100; area := 90; shading := 88; pitch := 100;
             condition := 80 |} default_config []) /\
  in_range 93.
Proof.
  assert (H1 : roof_fields_in_range roof_sample = true) by reflexivity.
  assert (H2 : analyze_roof_suitability no_further_recommendations default_config
                 (Some roof_sample)
               = Ok (Analysis 93 "excellent" "Roof is excellent for solar installation"
                       {| orientation := 100; area := 90; shading := 88; pitch := 100;
                          condition := 80 |} default_config []))
    by (vm_compute; reflexivity).
  split; [exact H1 |]. split; [exact H2 |].
  exact (proj1 (roof_analysis_in_range _ _ _ H1 H2)).
Defined.

(** X16: a roof record with neither a usable nor a total roof area is
    never found suitable: whatever its other fields and the
    configuration, the overall score is 0 and the suitability, when the
    result has one, is "unsuitable". *)
Theorem roof_without_area_is_unsuitable rest cfg roof :
  roof !! "usable_roof_area" = None ->
  roof !! "total_roof_area" = None ->
  exists res,
    analyze_roof_suitability rest cfg (Some roof) = Ok res /\
    overall_score res = 0 /\
    (suitability_of res = Some "unsuitable" \/ suitability_of res = None).
Proof.
  intros Hu Ht.
  assert (Ha : calculate_area_score cfg roof = Ok 0%Q).
  { unfold calculate_area_score. rewrite Hu, Ht. reflexivity. }
  unfold analyze_roof_suitability.
  destruct (negb (dict_truthy (Some roof)));
    [eexists; split; [reflexivity |]; auto |].
  unfold analyze_roof_suitability_body, assess. rewrite Ha.
  destruct (calculate_orientation_score cfg roof) as [o | e];
    [| eexists; split; [reflexivity |]; auto].
  destruct (calculate_shading_score cfg roof) as [s | e];
    [| eexists; split; [reflexivity |]; auto].
  destruct (calculate_pitch_score cfg roof) as [p | e];
    [| eexists; split; [reflexivity |]; auto].
  destruct (calculate_condition_score cfg roof) as [c | e];
    [| eexists; split; [reflexivity |]; auto].
  eexists. split; [reflexivity |]. split; [reflexivity | left; reflexivity].
Qed.

Lemma roof_without_area_is_unsuitable_witness :
  roof_without_area !! "usable_roof_area" = None /\
  roof_without_area !! "total_roof_area" = None /\
  exists res,
    analyze_roof_suitability no_further_recommendations default_config
      (Some roof_without_area) = Ok res /\
    overall_score res = 0.
Proof.
  assert (H1 : roof_without_area !! "usable_roof_area" = None) by reflexivity.
  assert (H2 : roof_without_area !! "total_roof_area" = None) by reflexivity.
  split; [exact H1 |]. split; [exact H2 |].
  destruct (roof_without_area_is_unsuitable no_further_recommendations default_config
              roof_without_area H1 H2) as (res & Hres & Ho & _).
  exists res. split; assumption.
Defined.

End RoofAnalyzerFacts.

(** ** Lead scoring *)

Module LeadScoringFacts.
Import LeadScoring LeadScoringProps.




(** X18: without utility data the bill is taken as $0.10 per square
    foot, so the bill score is 0 exactly for homes under 1200 sq ft and
    100 from 3000 sq ft on. *)
Theorem bill_score_from_square_footage p (sf : Q) :
  p !! "square_footage" = Some (VNum sf) ->
  exists s,
    calculate_bill_score p None = Ok s /\
    (s == 0 <-> sf < 1200)%Q /\ (s == 100 <-> 3000 <= sf)%Q.
Proof.
  intros Hkey. unfold calculate_bill_score. rewrite Hkey.
  simpl as_num. cbn [mbind result_bind mret result_ret].
  qcases; eexists; (split; [reflexivity |]); qdiv; intuition lra.
Qed.

Lemma bill_score_from_square_footage_witness :
  ({[ "square_footage" := VNum 1500 ]} : dict) !! "square_footage"
    = Some (VNum 1500) /\
  exists s,
    calculate_bill_score {[ "square_footage" := VNum 1500 ]} None = Ok s /\
    ~ (s == 0)%Q.
Proof.
  assert (H : ({[ "square_footage" := VNum 1500 ]} : dict) !! "square_footage"
              = Some (VNum 1500)) by reflexivity.
  split; [exact H |].
  destruct (bill_score_from_square_footage _ 1500 H) as (s & Hs & Hz & _).
  exists s. split; [exact Hs |]. intros E. apply Hz in E. revert E. discriminate.
Defined.

(** X19: a property that is not owner-occupied has property score 0,
    whatever its other fields, ill-typed ones included: the test comes
    first and returns at once. *)
Theorem not_owner_occupied_scores_zero p v :
  p !! "is_owner_occupied" = Some v ->
  truthy v = false ->
  calculate_property_score p = Ok 0%Q.
Proof.
  intros Hkey Hv. unfold calculate_property_score. rewrite Hkey, Hv. reflexivity.
Qed.

Lemma not_owner_occupied_scores_zero_witness :
  property_rented !! "is_owner_occupied" = Some (VBool false) /\
  truthy (VBool false) = false /\
  calculate_property_score property_rented = Ok 0%Q.
Proof.
  assert (H1 : property_rented !! "is_owner_occupied" = Some (VBool false))
    by reflexivity.
  assert (H2 : truthy (VBool false) = false) by reflexivity.
  split; [exact H1 |]. split; [exact H2 |].
  exact (not_owner_occupied_scores_zero property_rented (VBool false) H1 H2).
Defined.

(** X20: a property with a solar permit never has a positive property
    score: the score is 0, unless an ill-typed property value made the
    calculation raise before the permit was looked at. *)
Theorem solar_permit_scores_zero p v :
  p !! "has_solar_permit" = Some v ->
  truthy v = true ->
  calculate_property_score p = Ok 0%Q \/
  exists e, calculate_property_score p = Raise e.
Proof.
  intros Hkey Hv. unfold calculate_property_score. rewrite Hkey, Hv.
  destruct (p !! "is_owner_occupied") as [w |]; [destruct (truthy w) |];
    try (left; reflexivity);
    (destruct (p !! "property_value") as [pv |];
     [destruct (as_num pv) as [value | e]; [| right; eexists; reflexivity] |]);
    left; reflexivity.
Qed.

Lemma solar_permit_scores_zero_witness :
  property_with_solar !! "has_solar_permit" = Some (VBool true) /\
  truthy (VBool true) = true /\
  calculate_property_score property_with_solar = Ok 0%Q.
Proof.
  assert (H1 : property_with_solar !! "has_solar_permit" = Some (VBool true))
    by reflexivity.
  assert (H2 : truthy (VBool true) = true) by reflexivity.
  split; [exact H1 |]. split; [exact H2 |].
  destruct (solar_permit_scores_zero property_with_solar (VBool true) H1 H2)
    as [H | (e & H)]; [exact H | discriminate H].
Defined.

Lemma roof_score_number_range p r v q :
  roof_input_in_range r = true ->
  calculate_roof_score p r = Ok v ->
  as_num v = Ok q -> (0 <= q /\ q <= 100)%Q.
Proof.
  unfold calculate_roof_score, roof_input_in_range.
  destruct r as [d |]; [| intros _ [= <-] [= <-]; lra].
  destruct (negb (dict_truthy (Some d))); [intros _ [= <-] [= <-]; lra |].
  destruct (d !! "overall_score") as [w |].
  - intros Hin [= <-].
    destruct w as [| [] | x | x]; simpl; try discriminate;
      try (intros [= <-]; lra).
    intros [= <-]. apply andb_prop in Hin as [Hlo Hhi].
    apply Qle_bool_iff in Hlo, Hhi. lra.
  - intros Hin H Hq. apply bind_Ok in H as (s & Hs & H). injection H as <-.
    injection Hq as <-.
    apply roof_characteristics_range in Hs; [exact Hs |].
    intros x Ex. rewrite Ex in Hin. apply Qle_bool_iff in Hin. exact Hin.
Qed.

(** X21: with weights that are not negative and add up to 1 (the
    default ones do), whatever the thresholds and minimum requirements,
    the overall score of every result lies within 0..100, provided the
    roof record is as in [roof_input_in_range]. *)
Theorem overall_score_in_range cfg p u r o res :
  weights_normalised cfg ->
  roof_input_in_range r = true ->
  calculate_overall_score cfg p u r o = Ok res ->
  in_range (overall_score res).
Proof.
  intros (W1 & W2 & W3 & W4 & W5 & Wsum) Hin Hres.
  unfold calculate_overall_score in Hres. unfold in_range.
  destruct (calculate_overall_score_body cfg p u r o) as [res' | e] eqn:Hbody;
    simpl in Hres; injection Hres as <-; [| simpl; lia].
  apply body_Ok in Hbody
    as (bill & roof & property & metering & homeowner & rr
        & Hb & Hr & Hp & Hm & Hh & _ & H).
  apply bill_score_range in Hb. apply property_score_range in Hp.
  apply metering_score_range in Hm. apply homeowner_score_range in Hh.
  destruct H as [[_ ->] | [(roofq & _ & _ & _ & ->) | (roofq & _ & Hq & _ & ->)]];
    cbn [overall_score]; try (change (py_round 0) with 0; lia).
  pose proof (roof_score_number_range _ _ _ _ Hin Hr Hq) as Hroof.
  apply (py_round_bounds 0 100); unfold weighted_sum, inject_Z.
  - assert (H1 := Qmult_le_0_compat _ _ (proj1 Hb) W1).
    assert (H2 := Qmult_le_0_compat _ _ (proj1 Hroof) W2).
    assert (H3 := Qmult_le_0_compat _ _ (proj1 Hp) W3).
    assert (H4 := Qmult_le_0_compat _ _ (proj1 Hm) W4).
    assert (H5 := Qmult_le_0_compat _ _ (proj1 Hh) W5).
    lra.
  - assert (H1 : (bill * w_bill_size cfg <= 100 * w_bill_size cfg)%Q)
      by (apply Qmult_le_compat_r; [apply Hb | exact W1]).
    assert (H2 : (roofq * w_roof_suitability cfg <= 100 * w_roof_suitability cfg)%Q)
      by (apply Qmult_le_compat_r; [apply Hroof | exact W2]).
    assert (H3 : (property * w_property_value cfg <= 100 * w_property_value cfg)%Q)
      by (apply Qmult_le_compat_r; [apply Hp | exact W3]).
    assert (H4 : (metering * w_net_metering cfg <= 100 * w_net_metering cfg)%Q)
      by (apply Qmult_le_compat_r; [apply Hm | exact W4]).
    assert (H5 : (homeowner * w_homeowner cfg <= 100 * w_homeowner cfg)%Q)
      by (apply Qmult_le_compat_r; [apply Hh | exact W5]).
    lra.
Qed.

Lemma score_scale_weights_normalised : weights_normalised score_scale_config.
Proof. unfold weights_normalised. simpl. repeat split; try discriminate. Qed.

Lemma overall_score_in_range_witness :
  weights_normalised score_scale_config /\
  roof_input_in_range (Some (roof_precomputed 75)) = true /\
  (exists res,
     calculate_overall_score score_scale_config ∅ (Some (utility_bill 250))
       (Some (roof_precomputed 75)) None = Ok res /\
     overall_score res = 51 /\ in_range (overall_score res)).
Proof.
  assert (H1 : roof_input_in_range (Some (roof_precomputed 75)) = true)
    by reflexivity.
  split; [exact score_scale_weights_normalised |]. split; [exact H1 |].
  eexists. split; [vm_compute; reflexivity |]. split; [reflexivity |].
  refine (overall_score_in_range score_scale_config ∅ (Some (utility_bill 250))
            (Some (roof_precomputed 75)) None _ score_scale_weights_normalised H1 _).
  vm_compute. reflexivity.
Defined.

(** X22: when the four thresholds in use are positive, a disqualified
    lead is always qualified "unsuitable", whichever requirement it
    failed. *)
Theorem disqualified_is_unsuitable cfg p u r o res :
  thresholds_positive cfg ->
  calculate_overall_score_body cfg p u r o = Ok res ->
  disqualified_of res = Some true ->
  qualification_of res = "unsuitable".
Proof.
  intros (T1 & T2 & T3 & T4) H Hd.
  assert (Hq : qualify cfg 0 = "unsuitable").
  { unfold qualify. qcases; first [lra | reflexivity]. }
  apply body_Ok in H
    as (bill & roof & property & metering & homeowner & rr & _ & _ & _ & _ & _ & _ & H).
  destruct H as [[_ ->] | [(roofq & _ & _ & _ & ->) | (roofq & _ & _ & _ & ->)]];
    simpl in *; [exact Hq | exact Hq | discriminate].
Qed.

Lemma default_thresholds_positive : thresholds_positive score_scale_config.
Proof. unfold thresholds_positive. simpl. repeat split. Qed.

Lemma disqualified_is_unsuitable_witness :
  thresholds_positive score_scale_config /\
  calculate_overall_score_body score_scale_config ∅ (Some (utility_bill 250))
    (Some (roof_precomputed 10)) None = Ok scored_roof_disqualified /\
  disqualified_of scored_roof_disqualified = Some true /\
  qualification_of scored_roof_disqualified = "unsuitable".
Proof.
  assert (H : calculate_overall_score_body score_scale_config ∅
                (Some (utility_bill 250)) (Some (roof_precomputed 10)) None
              = Ok scored_roof_disqualified)
    by (vm_compute; reflexivity).
  split; [exact default_thresholds_positive |]. split; [exact H |].
  split; [reflexivity |].
  exact (disqualified_is_unsuitable _ _ _ _ _ _ default_thresholds_positive H eq_refl).
Defined.



End LeadScoringFacts.

(** ** The collaborators of the engines *)

Module CollaboratorFacts.

Lemma get_default_truthy (d : dict) k :
  truthy (dict_get k (VBool false) d) = true ->
  exists v, d !! k = Some v /\ truthy v = true.
Proof.
  unfold dict_get. destruct (d !! k) as [v |]; [eauto | discriminate].
Qed.

(** X24: a property that passes [_meets_basic_criteria] is not zeroed
    by the hard gates of the property score: with a property value that
    is absent or a number the score is at least 40 (and at most 100).
    The type test of the criteria ignores the case of the letters while
    the one of the score does not, so 40 is reached. *)
Theorem basic_criteria_imply_property_score p :
  DataEnrichment.meets_basic_criteria p = Ok true ->
  DataEnrichment.property_value_numeric p = true ->
  exists s,
    LeadScoring.calculate_property_score p = Ok s /\ (40 <= s /\ s <= 100)%Q.
Proof.
  unfold DataEnrichment.meets_basic_criteria, DataEnrichment.property_value_numeric.
  intros H Hnum. apply bind_Ok in H as (t & _ & H).
  destruct (negb (t =? "single-family")%string); [discriminate |].
  destruct (truthy (dict_get "is_owner_occupied" (VBool false) p)) eqn:Eo;
    [| discriminate]. cbn [negb] in H.
  destruct (truthy (dict_get "has_solar_installation" (VBool false) p));
    [discriminate |].
  destruct (truthy (dict_get "has_solar_permit" (VBool false) p)) eqn:Ep;
    [discriminate |].
  apply get_default_truthy in Eo as (v & Hv & Htv).
  unfold LeadScoring.calculate_property_score. rewrite Hv, Htv.
  assert (Hpermit : forall w, p !! "has_solar_permit" = Some w -> truthy w = false).
  { intros w Hw. unfold dict_get in Ep. rewrite Hw in Ep. exact Ep. }
  destruct (p !! "has_solar_permit") as [w |];
    [rewrite (Hpermit w eq_refl) |];
    (destruct (p !! "property_type") as [ty |];
     [destruct (eq_str ty "Single-Family"); [| destruct (eq_str ty "Multi-Family")] |]);
    (destruct (p !! "property_value") as [[| bv | q | x] |];
     try discriminate; simpl; try destruct bv; simpl);
    qcases; eexists; (split; [reflexivity |]); lra.
Qed.

Lemma basic_criteria_imply_property_score_witness :
  DataEnrichment.meets_basic_criteria DataEnrichment.property_lowercase_type = Ok true /\
  DataEnrichment.property_value_numeric DataEnrichment.property_lowercase_type = true /\
  exists s,
    LeadScoring.calculate_property_score DataEnrichment.property_lowercase_type = Ok s /\
    (40 <= s /\ s <= 100)%Q /\ (s == 40)%Q.
Proof.
  assert (H1 : DataEnrichment.meets_basic_criteria
                 DataEnrichment.property_lowercase_type = Ok true) by reflexivity.
  assert (H2 : DataEnrichment.property_value_numeric
                 DataEnrichment.property_lowercase_type = true) by reflexivity.
  split; [exact H1 |]. split; [exact H2 |].
  destruct (basic_criteria_imply_property_score _ H1 H2) as (s & Hs & Hr).
  exists s. split; [exact Hs |]. split; [exact Hr |].
  vm_compute in Hs. injection Hs as <-. reflexivity.
Defined.

(** X25: [get_utility_provider_by_location] returns one of four
    providers only: the tests for the Houston and the Dallas area come
    after tests that already hold there, so "Centerpoint Energy" and
    "Oncor Electric" are never returned; and each provider it returns
    has net metering in [check_net_metering_availability]. *)
Theorem provider_always_has_net_metering latitude longitude name :
  UtilityData.get_utility_provider_by_location latitude longitude = Ok name ->
  (name = "Austin Energy" \/ name = "CPS Energy" \/ name = "El Paso Electric" \/
   name = "Green Mountain Energy") /\
  UtilityData.has_net_metering (UtilityData.check_net_metering_availability name)
    = true.
Proof.
  unfold UtilityData.get_utility_provider_by_location, UtilityData.both.
  destruct (as_num latitude) as [la | e]; [| discriminate].
  cbn [mbind result_bind].
  destruct (as_num longitude) as [lo | e]; cbn [mbind result_bind mret result_ret];
    qcases; cbn [mbind result_bind mret result_ret];
    try discriminate; try lra;
    intros [= <-]; (split; [| reflexivity]); auto.
Qed.

Lemma provider_always_has_net_metering_witness :
  UtilityData.get_utility_provider_by_location (VNum 29.76) (VNum (-95.37))
    = Ok "CPS Energy" /\
  UtilityData.has_net_metering (UtilityData.check_net_metering_availability "CPS Energy")
    = true.
Proof.
  assert (H : UtilityData.get_utility_provider_by_location (VNum 29.76)
                (VNum (-95.37)) = Ok "CPS Energy") by reflexivity.
  split; [exact H |].
  exact (proj2 (provider_always_has_net_metering _ _ _ H)).
Defined.

End CollaboratorFacts.

(** ** Solar potential *)

Module RoofDataFacts.
Import RoofData.

Lemma orientation_factors_get_pos v : (0 < orientation_factors_get v)%Q.
Proof.
  unfold orientation_factors_get.
  repeat match goal with |- context [eq_str v ?k] => destruct (eq_str v k) end; lra.
Qed.

Lemma pitch_factor_of_pos p : (0 < pitch_factor_of p)%Q.
Proof. unfold pitch_factor_of. qcases; lra. Qed.

Lemma py_int_nonneg (x : Q) :
  (0 <= x)%Q ->
  (inject_Z (py_int x) <= x)%Q /\ (x < inject_Z (py_int x) + 1)%Q /\ 0 <= py_int x.
Proof.
  intros H. unfold py_int. destruct (Qle_bool 0 x) eqn:E.
  - split; [apply Qfloor_le |]. split.
    + pose proof (Qlt_floor x) as L. rewrite inject_Z_plus in L. exact L.
    + change 0 with (Qfloor 0). apply Qfloor_resp_le. exact H.
  - apply Qle_bool_false in E. lra.
Qed.

(** X26: for a usable area that is not negative, the panels counted by
    [estimate_solar_potential] fit the area and one more would not
    (17.5 sq ft each), and the system size is 0.3 kW per panel. *)
Theorem panels_fit_usable_area roof u (a : Q) size prod n fin :
  roof !! "usable_roof_area" = Some (VNum a) -> (0 <= a)%Q ->
  estimate_solar_potential roof u = Ok (Potential size prod n fin) ->
  (inject_Z n * 17.5 <= a)%Q /\ (a < (inject_Z n + 1) * 17.5)%Q /\
  (size == inject_Z n * 0.3)%Q /\ 0 <= n.
Proof.
  intros Hkey Ha. unfold estimate_solar_potential.
  destruct (estimate_solar_potential_body roof u) as [res | e] eqn:Hbody;
    simpl; [| discriminate].
  intros [= ->]. unfold estimate_solar_potential_body in Hbody.
  unfold dict_get in Hbody. rewrite Hkey in Hbody.
  apply bind_Ok in Hbody as (p & _ & Hbody).
  apply bind_Ok in Hbody as (a' & Ha' & Hbody). injection Ha' as <-.
  apply bind_Ok in Hbody as (f & _ & Hbody). injection Hbody as <- _ <- _.
  assert (Hx : (0 <= a / 17.5)%Q) by qlra.
  destruct (py_int_nonneg _ Hx) as (H1 & H2 & H3).
  split; [qlra |]. split; [qlra |]. split; [reflexivity | exact H3].
Qed.

Lemma panels_fit_usable_area_witness :
  RoofAnalyzer.roof_sample !! "usable_roof_area" = Some (VNum 1000) /\
  (0 <= 1000)%Q /\
  exists size prod fin,
    estimate_solar_potential RoofAnalyzer.roof_sample None
      = Ok (Potential size prod 57 fin) /\
    (inject_Z 57 * 17.5 <= 1000)%Q /\ (1000 < (inject_Z 57 + 1) * 17.5)%Q.
Proof.
  assert (H1 : RoofAnalyzer.roof_sample !! "usable_roof_area" = Some (VNum 1000))
    by reflexivity.
  assert (H2 : (0 <= 1000)%Q) by discriminate.
  assert (H : exists size prod fin,
            estimate_solar_potential RoofAnalyzer.roof_sample None
            = Ok (Potential size prod 57 fin))
    by (do 3 eexists; vm_compute; reflexivity).
  destruct H as (size & prod & fin & H).
  split; [exact H1 |]. split; [exact H2 |].
  exists size, prod, fin. split; [exact H |].
  destruct (panels_fit_usable_area _ _ _ _ _ _ _ H1 H2 H) as (L & U & _).
  split; assumption.
Defined.

(** X27: with room for at least one panel and a positive rate, the
    payback period does not depend on the usable area: it is 160/73
    years divided by the orientation factor, the pitch factor and the
    rate. *)
Theorem payback_independent_of_area roof u (a p r : Q) :
  roof !! "usable_roof_area" = Some (VNum a) -> (17.5 <= a)%Q ->
  as_num (dict_get "pitch" (VNum 20) roof) = Ok p ->
  dict_truthy (Some u) = true ->
  as_num (dict_get "residential" (VNum 0.12) u) = Ok r -> (0 < r)%Q ->
  exists res pb,
    estimate_solar_potential roof (Some u) = Ok res /\
    payback_of res = Some pb /\
    (pb == (160 # 73) /
           (orientation_factors_get (dict_get "primary_orientation" (VStr "S") roof)
            * pitch_factor_of p * r))%Q.
Proof.
  intros Hkey Ha Hp Hu Hr Hpos.
  unfold estimate_solar_potential, estimate_solar_potential_body.
  rewrite Hp. cbn [mbind result_bind].
  assert (Harea : dict_get "usable_roof_area" (VNum 0) roof = VNum a)
    by (unfold dict_get; rewrite Hkey; reflexivity).
  rewrite Harea. simpl as_num. cbn [mbind result_bind].
  rewrite Hu, Hr. cbn [mbind result_bind mret result_ret try_except].
  fold (pitch_factor_of p).
  set (ofac := orientation_factors_get _).
  set (pf := pitch_factor_of p).
  assert (Hof : (0 < ofac)%Q) by apply orientation_factors_get_pos.
  assert (Hpf : (0 < pf)%Q) by apply pitch_factor_of_pos.
  assert (Hx : (0 <= a / 17.5)%Q) by qlra.
  destruct (py_int_nonneg _ Hx) as (H1 & H2 & H3).
  set (N := inject_Z (py_int (a / 17.5))) in *.
  assert (HN : (1 <= N)%Q).
  { assert (Hz : 1 <= py_int (a / 17.5)).
    { assert (Hlt : (0 < N + 1 - 1)%Q) by (unfold Qdiv in *; qlra).
      assert (Hn0 : (0 < N)%Q) by lra.
      subst N. unfold Qlt, inject_Z in Hn0. simpl in Hn0. lia. }
    subst N. unfold Qle, inject_Z. simpl. lia. }
  clearbody N ofac pf.
  assert (Hsav : (0 < N * 0.3 * 5.0 * 365 * ofac * pf * 0.75 * r)%Q).
  { repeat apply Qmult_lt_0_compat; lra. }
  unfold Qgtb.
  destruct (Qle_bool (N * 0.3 * 5.0 * 365 * ofac * pf * 0.75 * r) 0) eqn:E;
    [apply Qle_bool_iff in E; lra |].
  eexists. eexists. split; [reflexivity |]. split; [reflexivity |].
  cbn [negb payback_period]. field. repeat split; lra.
Qed.

Lemma payback_independent_of_area_witness :
  RoofAnalyzer.roof_sample !! "usable_roof_area" = Some (VNum 1000) /\
  (17.5 <= 1000)%Q /\
  as_num (dict_get "pitch" (VNum 20) RoofAnalyzer.roof_sample) = Ok 25%Q /\
  dict_truthy (Some (BillEstimator.utility_rate 0.12)) = true /\
  as_num (dict_get "residential" (VNum 0.12) (BillEstimator.utility_rate 0.12))
    = Ok 0.12%Q /\
  (0 < 0.12)%Q /\
  exists res pb,
    estimate_solar_potential RoofAnalyzer.roof_sample
      (Some (BillEstimator.utility_rate 0.12)) = Ok res /\
    payback_of res = Some pb /\
    (pb == (160 # 73) / (1.0 * 1.0 * 0.12))%Q.
Proof.
  assert (H1 : RoofAnalyzer.roof_sample !! "usable_roof_area" = Some (VNum 1000))
    by reflexivity.
  assert (H2 : (17.5 <= 1000)%Q) by discriminate.
  assert (H3 : as_num (dict_get "pitch" (VNum 20) RoofAnalyzer.roof_sample)
               = Ok 25%Q) by reflexivity.
  assert (H4 : dict_truthy (Some (BillEstimator.utility_rate 0.12)) = true)
    by reflexivity.
  assert (H5 : as_num (dict_get "residential" (VNum 0.12)
                         (BillEstimator.utility_rate 0.12)) = Ok 0.12%Q)
    by reflexivity.
  assert (H6 : (0 < 0.12)%Q) by reflexivity.
  repeat (split; [assumption |]).
  exact (payback_independent_of_area RoofAnalyzer.roof_sample
           (BillEstimator.utility_rate 0.12) 1000 25 0.12 H1 H2 H3 H4 H5 H6).
Defined.

End RoofDataFacts.

(** ** Failure policy of the entry points *)

Module FailurePolicy.

Lemma round_val_as_num v z : round_val v = Ok z -> exists q, as_num v = Ok q.
Proof. destruct v as [| b | q | x]; simpl; try discriminate; eauto. Qed.

(** The body of [calculate_overall_score] returns exactly when the five
    component scores can be computed and the roof score is a number. *)
Lemma overall_score_body_returns_iff cfg p u r o :
  (exists res, LeadScoring.calculate_overall_score_body cfg p u r o = Ok res) <->
  (exists bill roof property metering homeowner z,
     LeadScoring.calculate_bill_score p u = Ok bill /\
     LeadScoring.calculate_roof_score p r = Ok roof /\
     LeadScoring.calculate_property_score p = Ok property /\
     LeadScoring.calculate_net_metering_score p u = Ok metering /\
     LeadScoring.calculate_homeowner_score p o = Ok homeowner /\
     round_val roof = Ok z).
Proof.
  split.
  - intros (res & H). apply LeadScoringProps.body_Ok in H
      as (bill & roof & property & metering & homeowner & rr
          & Hb & Hr & Hp & Hm & Hh & Hrr & _).
    exists bill, roof, property, metering, homeowner, rr. auto 10.
  - intros (bill & roof & property & metering & homeowner & z
            & Hb & Hr & Hp & Hm & Hh & Hz).
    unfold LeadScoring.calculate_overall_score_body.
    rewrite Hb, Hr, Hp, Hm, Hh. cbn [mbind result_bind].
    destruct (round_val_as_num _ _ Hz) as (q & Hq). rewrite Hq, Hz.
    cbn [mbind result_bind].
    destruct (Qltb bill (LeadScoring.min_monthly_bill cfg));
      [| destruct (Qltb q (LeadScoring.min_roof_score cfg))];
      cbn [mbind result_bind mret result_ret]; eexists; reflexivity.
Qed.

(** The body of [estimate_monthly_bill] returns exactly when the usage,
    the month factor and the rate can be computed. *)
Lemma estimate_body_returns_iff cfg cy p u month :
  (exists b, BillEstimator.estimate_monthly_bill_body cfg cy p u month = Ok b) <->
  (exists k mf r,
     BillEstimator.usage_without_month cfg cy p = Ok k /\
     BillEstimator.month_factor cfg month = Ok mf /\
     as_num (BillEstimator.rate_of u) = Ok r).
Proof.
  rewrite BillEstimatorFacts.body_split. split.
  - intros (b & H). apply bind_Ok in H as (k & Hk & H).
    apply bind_Ok in H as (mf & Hmf & H). apply bind_Ok in H as (r & Hr & _).
    exists k, mf, r. auto.
  - intros (k & mf & r & Hk & Hmf & Hr). rewrite Hk, Hmf, Hr.
    eexists. reflexivity.
Qed.

(** With [property_data = None] the call always raises: the body cannot
    get past [calculate_property_score], and the handler raises on
    [property_data.get]. *)
Lemma overall_score_of_none_raises cfg u r o :
  LeadScoring.calculate_overall_score_of cfg None u r o
  = Raise LeadScoring.none_has_no_get.
Proof.
  unfold LeadScoring.calculate_overall_score_of,
    LeadScoring.calculate_overall_score_body_none.
  destruct (LeadScoring.calculate_bill_score_none u); [| reflexivity].
  cbn [mbind result_bind].
  destruct (LeadScoring.calculate_roof_score ∅ r); reflexivity.
Qed.

(** C10, as stated, fails: [calculate_overall_score] with
    [property_data = None] raises [AttributeError] from its own
    handler, and the public [estimate_bill_by_zip_code] raises
    [AttributeError] for a ZIP code that is a number. *)
Lemma entry_points_can_raise :
  LeadScoring.calculate_overall_score_of LeadScoring.default_config
    None None None None
  = Raise (AttributeError "'NoneType' object has no attribute 'get'") /\
  BillEstimator.estimate_bill_by_zip_code BillEstimator.default_config 2026
    (VNum 78701) (VNum 2000) (VNum 2015) (VNum 3)
  = Raise (AttributeError "object has no attribute 'startswith'").
Proof. split; vm_compute; reflexivity. Qed.

(** C10, amended: [estimate_monthly_bill] never raises, for a
    [property_data] that is a dictionary or [None]: it returns what its
    body returns, or 0 when the body raises, which is when the usage,
    the month factor or the rate cannot be computed.
    [calculate_overall_score], for a [property_data] that is a
    dictionary, never raises: it returns what its body returns, or,
    when the body raises (a component score cannot be computed or the
    roof score is not a number), the error dictionary with overall
    score 0, qualification "error" and the text of the exception. *)
Theorem entry_points_failure_policy :
  (forall cfg cy property_data u month,
     exists bill,
       BillEstimator.estimate_monthly_bill_of cfg cy property_data u month = Ok bill /\
       match property_data with
       | None => bill = 0%Q
       | Some p =>
           BillEstimator.estimate_monthly_bill_body cfg cy p u month = Ok bill \/
           (bill = 0%Q /\
            ~ (exists k mf r,
                 BillEstimator.usage_without_month cfg cy p = Ok k /\
                 BillEstimator.month_factor cfg month = Ok mf /\
                 as_num (BillEstimator.rate_of u) = Ok r))
       end) /\
  (forall cfg p u r o,
     exists res,
       LeadScoring.calculate_overall_score_of cfg (Some p) u r o = Ok res /\
       (LeadScoring.calculate_overall_score_body cfg p u r o = Ok res \/
        exists e,
          LeadScoring.calculate_overall_score_body cfg p u r o = Raise e /\
          res = LeadScoring.ScoreError
                  (dict_get "property_id" (VStr "unknown") p) (exn_str e) /\
          LeadScoring.overall_score res = 0 /\
          LeadScoring.qualification_of res = "error" /\
          ~ (exists bill roof property metering homeowner z,
               LeadScoring.calculate_bill_score p u = Ok bill /\
               LeadScoring.calculate_roof_score p r = Ok roof /\
               LeadScoring.calculate_property_score p = Ok property /\
               LeadScoring.calculate_net_metering_score p u = Ok metering /\
               LeadScoring.calculate_homeowner_score p o = Ok homeowner /\
               round_val roof = Ok z))).
Proof.
  split.
  - intros cfg cy [p |] u month; [| exists 0%Q; split; reflexivity].
    cbn [BillEstimator.estimate_monthly_bill_of].
    destruct (BillEstimatorProps.estimate_monthly_bill_returns cfg cy p u month)
      as (bill & Hbill & Hcase).
    exists bill. split; [exact Hbill |].
    destruct Hcase as [Hbody | (e & Hbody & ->)]; [left; exact Hbody |].
    right. split; [reflexivity |]. intros Hex.
    apply estimate_body_returns_iff in Hex as (b & Hb). congruence.
  - intros cfg p u r o. cbn [LeadScoring.calculate_overall_score_of].
    destruct (LeadScoringProps.calculate_overall_score_returns cfg p u r o)
      as (res & Hres & Hcase).
    exists res. split; [exact Hres |].
    destruct Hcase as [Hbody | (e & Hbody & -> & Ho & Hq)]; [left; exact Hbody |].
    right. exists e. repeat (split; [first [assumption | reflexivity] |]).
    intros Hex.
    apply (proj2 (overall_score_body_returns_iff cfg p u r o)) in Hex as (res & Hr).
    congruence.
Qed.

End FailurePolicy.
